(** * A shallow embedding of [src/momo1/model.py]

    The file models the parts of the GPT model that are authored in the
    repository: the attention-bias builder, the embedding stage, the tied
    output projection, the loss targets and the FLOPs helper.

    Numbers.  Python integers are [Z] or [nat]; tensor entries that are
    floating point in the source are exact rationals ([Q]) extended with
    the one infinite value the source writes, [float("-inf")].  Rounding
    of the bfloat16 / float32 types is not modelled; the two
    transcendental operations the code needs, [2 ** m] in [alibi_bias] and
    the log-softmax inside [F.cross_entropy], are parameters ([pow2],
    [nll]).

    Tensors are a shape with an indexing function; broadcasting, slicing
    and views follow the library.  Activations are dual numbers (a value
    and a tangent), so that [detach] has a meaning.  Library modules
    ([nn.LayerNorm], [nn.Linear], [nn.Dropout], attention kernels) are the
    functions their [forward] computes, with the shapes of the parameters
    they own.  Exceptions are the [Raise] results of an error monad, and
    the methods of [MosaicModel] thread the model object. *)

From Stdlib Require Import ZArith QArith Qabs List Bool Lia String Arith.
From Stdlib Require Import DecimalString.
Import ListNotations.

Set Implicit Arguments.

Close Scope Q_scope.
Open Scope string_scope.
Open Scope list_scope.
Open Scope nat_scope.

(** ** Exceptions *)

Inductive exn : Type :=
| AssertionError (msg : string)
| RuntimeError (msg : string)
| IndexError (msg : string)
| TypeError (msg : string)
| AttributeError (msg : string)
| ValueError (msg : string)
| ZeroDivisionError.

Inductive result (A : Type) : Type :=
| Ok (a : A)
| Raise (e : exn).
Arguments Ok {A} a.
Arguments Raise {A} e.

Definition bind {A B} (m : result A) (k : A -> result B) : result B :=
  match m with
  | Ok a => k a
  | Raise e => Raise e
  end.

Definition assert (b : bool) (msg : string) : result unit :=
  if b then Ok tt else Raise (AssertionError msg).

Declare Scope py_scope.
Delimit Scope py_scope with py.
Notation "x <- m ;; k" := (bind m (fun x => k))
  (at level 61, m at next level, right associativity) : py_scope.
Notation "m ;;; k" := (bind m (fun _ => k))
  (at level 61, right associativity) : py_scope.
Open Scope py_scope.

(** ** Tensors

    A tensor is its shape together with an indexing function; only the
    entries inside the shape are meaningful. *)

Module Tensor.

Record t1 (A : Type) : Type := T1 { len1 : nat; at1 : nat -> A }.

Record t2 (A : Type) : Type :=
  T2 { rows : nat; cols : nat; at2 : nat -> nat -> A }.

Record t3 (A : Type) : Type :=
  T3 { n0 : nat; n1 : nat; n2 : nat; at3 : nat -> nat -> nat -> A }.

Record t4 (A : Type) : Type :=
  T4 { dim0 : nat; dim1 : nat; dim2 : nat; dim3 : nat;
       at4 : nat -> nat -> nat -> nat -> A }.

Definition shape2 {A} (t : t2 A) : nat * nat := (rows t, cols t).
Definition shape3 {A} (t : t3 A) : nat * nat * nat := (n0 t, n1 t, n2 t).
Definition shape4 {A} (t : t4 A) : nat * nat * nat * nat :=
  (dim0 t, dim1 t, dim2 t, dim3 t).

(** Guarded reads: [None] outside the shape. *)
Definition get2 {A} (t : t2 A) (i j : nat) : option A :=
  if (i <? rows t) && (j <? cols t) then Some (at2 t i j) else None.

Definition get4 {A} (t : t4 A) (b h q k : nat) : option A :=
  if (b <? dim0 t) && (h <? dim1 t) && (q <? dim2 t) && (k <? dim3 t)
  then Some (at4 t b h q k) else None.

(** A rank-2 tensor from nested lists, for concrete inputs. *)
Definition of_rows {A} (d : A) (ncols : nat) (l : list (list A)) : t2 A :=
  T2 (List.length l) ncols (fun i j => nth j (nth i l []) d).

Definition eqb_shape2 (s s' : nat * nat) : bool :=
  (fst s =? fst s') && (snd s =? snd s').

(** [torch.arange(lo, hi)] *)
Definition arange (lo hi : Z) : t1 Z :=
  T1 (Z.to_nat (hi - lo)) (fun i => (lo + Z.of_nat i)%Z).

Definition map1 {A B} (f : A -> B) (t : t1 A) : t1 B :=
  T1 (len1 t) (fun i => f (at1 t i)).

Definition map2 {A B} (f : A -> B) (t : t2 A) : t2 B :=
  T2 (rows t) (cols t) (fun i j => f (at2 t i j)).

Definition map4 {A B} (f : A -> B) (t : t4 A) : t4 B :=
  T4 (dim0 t) (dim1 t) (dim2 t) (dim3 t)
     (fun b h q k => f (at4 t b h q k)).

(** [torch.ones([n, m], dtype=torch.bool)] *)
Definition ones (n m : nat) : t2 bool := T2 n m (fun _ _ => true).

(** [torch.tril]: entries above the main diagonal become zero. *)
Definition tril {A} (zero : A) (t : t2 A) : t2 A :=
  T2 (rows t) (cols t) (fun i j => if j <=? i then at2 t i j else zero).

(** [t.unsqueeze(0).unsqueeze(0)] on a rank-2 tensor. *)
Definition unsqueeze_0_0 {A} (t : t2 A) : t4 A :=
  T4 1 1 (rows t) (cols t) (fun _ _ i j => at2 t i j).

(** [t.unsqueeze(1).unsqueeze(1)] on a rank-2 tensor. *)
Definition unsqueeze_1_1 {A} (t : t2 A) : t4 A :=
  T4 (rows t) 1 1 (cols t) (fun b _ _ k => at2 t b k).

(** [t.view(1, 1, 1, n)] and [t.view(1, 1, n, 1)] and [t.view(1, n, 1, 1)]
    on a rank-1 tensor of length [n]. *)
Definition view_111n {A} (t : t1 A) : t4 A :=
  T4 1 1 1 (len1 t) (fun _ _ _ k => at1 t k).
Definition view_11n1 {A} (t : t1 A) : t4 A :=
  T4 1 1 (len1 t) 1 (fun _ _ q _ => at1 t q).
Definition view_1n11 {A} (t : t1 A) : t4 A :=
  T4 1 (len1 t) 1 1 (fun _ h _ _ => at1 t h).

(** [t[:, :, :s, :s]] *)
Definition slice_last2 {A} (s : nat) (t : t4 A) : t4 A :=
  T4 (dim0 t) (dim1 t) (Nat.min s (dim2 t)) (Nat.min s (dim3 t)) (at4 t).

(** Broadcasting of one dimension: equal sizes, or one of them is 1. *)
Definition bdim (a b : nat) : result nat :=
  if a =? b then Ok a
  else if a =? 1 then Ok b
  else if b =? 1 then Ok a
  else Raise (RuntimeError "The size of tensor a must match the size of tensor b").

(** The index read in a dimension of size [d] when the result index is [i]. *)
Definition bidx (d i : nat) : nat := if d =? 1 then 0 else i.

(** An elementwise binary operation with broadcasting. *)
Definition broadcast {A B C} (f : A -> B -> C) (a : t4 A) (b : t4 B)
  : result (t4 C) :=
  e0 <- bdim (dim0 a) (dim0 b) ;;
  e1 <- bdim (dim1 a) (dim1 b) ;;
  e2 <- bdim (dim2 a) (dim2 b) ;;
  e3 <- bdim (dim3 a) (dim3 b) ;;
  Ok (T4 e0 e1 e2 e3
        (fun i j q k =>
           f (at4 a (bidx (dim0 a) i) (bidx (dim1 a) j)
                    (bidx (dim2 a) q) (bidx (dim3 a) k))
             (at4 b (bidx (dim0 b) i) (bidx (dim1 b) j)
                    (bidx (dim2 b) q) (bidx (dim3 b) k)))).

(** [torch.all] on a rank-2 boolean tensor. *)
Definition all (t : t2 bool) : bool :=
  forallb (fun i => forallb (fun j => at2 t i j) (seq 0 (cols t)))
          (seq 0 (rows t)).

(** [t.bool()] on a byte tensor: non-zero is [True]. *)
Definition to_bool (t : t2 Z) : t2 bool :=
  map2 (fun z => negb (z =? 0)%Z) t.

Definition zeros_like (t : t4 Q) : t4 Q := map4 (fun _ => 0%Q) t.

End Tensor.
Import Tensor.

(** ** Floating-point entries of the bias *)

Inductive xfloat : Type :=
| Fin (x : Q)
| NegInf.

Definition is_finite (v : xfloat) : Prop := exists x, v = Fin x.

(** [torch.where(mask, bias, float("-inf"))] *)
Definition where_neg_inf (mask : t4 bool) (bias : t4 Q) : result (t4 xfloat) :=
  broadcast (fun (m : bool) (x : Q) => if m then Fin x else NegInf) mask bias.

Definition logical_or (a b : t4 bool) : result (t4 bool) := broadcast orb a b.
Definition logical_and (a b : t4 bool) : result (t4 bool) := broadcast andb a b.

(** ** Activations

    An activation carries its value and its tangent (the derivative with
    respect to an upstream quantity); [detach] is [Tensor.detach()]: the
    same value, cut off from differentiation. *)

Record dual : Type := D { val : Q; tan : Q }.

Definition dadd (x y : dual) : dual :=
  D (val x + val y)%Q (tan x + tan y)%Q.
Definition dmul (x y : dual) : dual :=
  D (val x * val y)%Q (tan x * val y + val x * tan y)%Q.
Definition dscale (x : dual) (c : Q) : dual :=
  D (val x * c)%Q (tan x * c)%Q.
Definition detach (x : dual) : dual := D (val x) 0%Q.
Definition dzero : dual := D 0%Q 0%Q.

(** Rank-3 helpers for activations. *)
Definition map3 {A B} (f : A -> B) (t : t3 A) : t3 B :=
  T3 (n0 t) (n1 t) (n2 t) (fun b i c => f (at3 t b i c)).

Definition broadcast3 {A B C} (f : A -> B -> C) (a : t3 A) (b : t3 B)
  : result (t3 C) :=
  e0 <- bdim (n0 a) (n0 b) ;;
  e1 <- bdim (n1 a) (n1 b) ;;
  e2 <- bdim (n2 a) (n2 b) ;;
  Ok (T3 e0 e1 e2
        (fun i j k =>
           f (at3 a (bidx (n0 a) i) (bidx (n1 a) j) (bidx (n2 a) k))
             (at3 b (bidx (n0 b) i) (bidx (n1 b) j) (bidx (n2 b) k)))).

(** [x + y] on activations. *)
Definition add3 (x y : t3 dual) : result (t3 dual) := broadcast3 dadd x y.

(** ** Library modules

    A library module ([nn.LayerNorm], [nn.Dropout], [nn.Linear], [nn.GELU])
    is the function its [forward] computes, together with the names and
    shapes of the parameters it owns. *)

Definition param_list : Type := list (string * list nat).

Record module : Type := Mk_module {
  forward_of : t3 dual -> result (t3 dual);
  parameters_of : param_list
}.

Definition numel (shape : list nat) : nat := fold_right Nat.mul 1 shape.

(** The forward functions of the library modules, with the weights drawn at
    construction already inside them. *)
Record Fresh : Type := {
  fresh_wte : nat -> nat -> dual;
  fresh_wpe : nat -> nat -> dual;
  fresh_emb_drop : t3 dual -> result (t3 dual);
  fresh_ln_f : t3 dual -> result (t3 dual);
  fresh_ln_1 : nat -> t3 dual -> result (t3 dual);
  fresh_ln_2 : nat -> t3 dual -> result (t3 dual);
  fresh_mlp_up : nat -> t3 dual -> result (t3 dual);
  fresh_mlp_act : nat -> t3 dual -> result (t3 dual);
  fresh_mlp_down : nat -> t3 dual -> result (t3 dual);
  fresh_resid_attn_dropout : nat -> t3 dual -> result (t3 dual);
  fresh_resid_mlp_dropout : nat -> t3 dual -> result (t3 dual);
  fresh_torch_mhsa : nat -> t3 dual -> t3 xfloat -> result (t3 dual);
  fresh_flash_mhsa : nat -> t3 dual -> t4 xfloat -> result (t3 dual);
  (* the parameters of [FlashMHA], whose source is not part of this file *)
  flash_mha_parameters : param_list
}.

Definition nn_LayerNorm (d : nat) (f : t3 dual -> result (t3 dual)) : module :=
  Mk_module f [("weight", [d]); ("bias", [d])].

Definition nn_Linear (n_in n_out : nat) (f : t3 dual -> result (t3 dual))
  : module :=
  Mk_module f [("weight", [n_out; n_in]); ("bias", [n_out])].

Definition nn_Dropout (f : t3 dual -> result (t3 dual)) : module :=
  Mk_module f [].

Definition nn_GELU (f : t3 dual -> result (t3 dual)) : module :=
  Mk_module f [].

(** [nn.MultiheadAttention(embed_dim=d, bias=True)] *)
Definition nn_MultiheadAttention_parameters (d : nat) : param_list :=
  [("in_proj_weight", [3 * d; d]); ("in_proj_bias", [3 * d]);
   ("out_proj.weight", [d; d]); ("out_proj.bias", [d])].

(** [nn.Embedding]: its weight is the one parameter. *)
Record Embedding : Type := { weight : t2 dual }.

Definition ids_in_range (n : nat) (ids : t2 Z) : bool :=
  forallb (fun b =>
    forallb (fun i => (0 <=? at2 ids b i)%Z && (at2 ids b i <? Z.of_nat n)%Z)
            (seq 0 (cols ids)))
    (seq 0 (rows ids)).

Definition Embedding_forward (self : Embedding) (ids : t2 Z)
  : result (t3 dual) :=
  if ids_in_range (rows (weight self)) ids
  then Ok (T3 (rows ids) (cols ids) (cols (weight self))
              (fun b i c => at2 (weight self) (Z.to_nat (at2 ids b i)) c))
  else Raise (IndexError "index out of range in self").

(** ** Configuration ([cfg], an omegaconf [DictConfig]) *)

Record Config : Type := {
  name : string;
  d_model : nat;
  n_heads : nat;
  n_layers : nat;
  max_seq_len : nat;
  vocab_size : nat;
  mlp_ratio : nat;
  attn_impl : string;
  attn_pdrop : Q;
  device : string;
  cfg_alibi : option bool;              (* cfg.get("alibi", False) *)
  cfg_alibi_bias_max : option Q;        (* cfg.get("alibi_bias_max", 8) *)
  cfg_embedding_fraction : option Q     (* cfg.get("embedding_fraction", 1) *)
}.

Definition cfg_get {A} (o : option A) (default : A) : A :=
  match o with Some a => a | None => default end.

(** ** [alibi_bias] *)

Section Alibi.

(** [2 ** m] on floating-point numbers. *)
Variable pow2 : Q -> Q.

Definition alibi_bias (n_heads seq_len : nat) (full : bool)
           (alibi_bias_max : Q) : result (t4 Q) :=
  let r := map1 inject_Z (arange (1 - Z.of_nat seq_len) 1) in
  let alibi_bias := view_111n r in
  alibi_bias <-
    (if full then
       d <- broadcast Qminus alibi_bias (view_11n1 r) ;;
       Ok (map4 (fun x => Qabs x * (-1))%Q d)
     else Ok alibi_bias) ;;
  let m := map1 inject_Z (arange 1 (Z.of_nat n_heads + 1)) in
  step <- (if n_heads =? 0 then Raise ZeroDivisionError
           else Ok (alibi_bias_max / inject_Z (Z.of_nat n_heads))%Q) ;;
  let m := map1 (fun x => x * step)%Q m in
  broadcast Qmult alibi_bias (view_1n11 (map1 (fun x => 1 / pow2 x)%Q m)).


End Alibi.

(** ** Attention sublayers *)

(** [attn_mask.view((-1,) + attn_mask.shape[2:])] *)
Definition view_merge01 {A} (t : t4 A) : t3 A :=
  T3 (dim0 t * dim1 t) (dim2 t) (dim3 t)
     (fun i q k => at4 t (i / dim1 t) (i mod dim1 t) q k).

Inductive Attention : Type :=
| TorchAttention (mhsa : t3 dual -> t3 xfloat -> result (t3 dual))
                 (mhsa_parameters : param_list)
| TritonFlashAttention (mhsa : t3 dual -> t4 xfloat -> result (t3 dual))
                       (mhsa_parameters : param_list).

Definition Attention_forward (self : Attention) (x : t3 dual)
           (attn_mask : t4 xfloat) : result (t3 dual) :=
  match self with
  | TorchAttention mhsa _ => mhsa x (view_merge01 attn_mask)
  | TritonFlashAttention mhsa _ => mhsa x attn_mask
  end.

Definition prefix (p : string) (l : param_list) : param_list :=
  map (fun nv => ((p ++ "." ++ fst nv)%string, snd nv)) l.

Definition Attention_parameters (self : Attention) : param_list :=
  match self with
  | TorchAttention _ ps => prefix "mhsa" ps
  | TritonFlashAttention _ ps => prefix "mhsa" ps
  end.

(** ** [GPTMLP] and [GPTBlock] *)

Record GPTMLP : Type := {
  mlp_up : module;
  mlp_act : module;
  mlp_down : module
}.

Definition GPTMLP_forward (self : GPTMLP) (x : t3 dual) : result (t3 dual) :=
  u <- forward_of (mlp_up self) x ;;
  a <- forward_of (mlp_act self) u ;;
  forward_of (mlp_down self) a.

Definition GPTMLP_parameters (self : GPTMLP) : param_list :=
  prefix "mlp_up" (parameters_of (mlp_up self))
  ++ prefix "mlp_act" (parameters_of (mlp_act self))
  ++ prefix "mlp_down" (parameters_of (mlp_down self)).

Record GPTBlock : Type := {
  ln_1 : module;
  attn : Attention;
  ln_2 : module;
  mlp : GPTMLP;
  resid_attn_dropout : module;
  resid_mlp_dropout : module
}.

Definition GPTBlock_forward (self : GPTBlock) (x : t3 dual)
           (attn_mask : t4 xfloat) : result (t3 dual) :=
  a <- forward_of (ln_1 self) x ;;
  b <- Attention_forward (attn self) a attn_mask ;;
  b <- forward_of (resid_attn_dropout self) b ;;
  x <- add3 x b ;;
  m <- forward_of (ln_2 self) x ;;
  n <- GPTMLP_forward (mlp self) m ;;
  n <- forward_of (resid_mlp_dropout self) n ;;
  add3 x n.

Definition GPTBlock_parameters (self : GPTBlock) : param_list :=
  prefix "ln_1" (parameters_of (ln_1 self))
  ++ prefix "attn" (Attention_parameters (attn self))
  ++ prefix "ln_2" (parameters_of (ln_2 self))
  ++ prefix "mlp" (GPTMLP_parameters (mlp self))
  ++ prefix "resid_attn_dropout" (parameters_of (resid_attn_dropout self))
  ++ prefix "resid_mlp_dropout" (parameters_of (resid_mlp_dropout self)).

Definition GPTMLP_init (cfg : Config) (fresh : Fresh) (i : nat) : GPTMLP :=
  {| mlp_up := nn_Linear (d_model cfg) (mlp_ratio cfg * d_model cfg)
                         (fresh_mlp_up fresh i);
     mlp_act := nn_GELU (fresh_mlp_act fresh i);
     mlp_down := nn_Linear (mlp_ratio cfg * d_model cfg) (d_model cfg)
                           (fresh_mlp_down fresh i) |}.

Definition TritonFlashAttention_init (cfg : Config) (fresh : Fresh) (i : nat)
  : result Attention :=
  assert (Qeq_bool (attn_pdrop cfg) 0)
         "triton kernel does not support attn_dropout" ;;;
  Ok (TritonFlashAttention (fresh_flash_mhsa fresh i)
                           (flash_mha_parameters fresh)).

Definition TorchAttention_init (cfg : Config) (fresh : Fresh) (i : nat)
  : result Attention :=
  Ok (TorchAttention (fresh_torch_mhsa fresh i)
                     (nn_MultiheadAttention_parameters (d_model cfg))).

Definition GPTBlock_init (cfg : Config) (fresh : Fresh) (i : nat)
  : result GPTBlock :=
  attn_cls <-
    (if String.eqb (attn_impl cfg) "triton" then Ok TritonFlashAttention_init
     else if String.eqb (attn_impl cfg) "torch" then Ok TorchAttention_init
     else (* [raise NotImplemented(...)]: the call itself raises *)
          Raise (TypeError "'NotImplementedType' object is not callable")) ;;
  a <- attn_cls cfg fresh i ;;
  Ok {| ln_1 := nn_LayerNorm (d_model cfg) (fresh_ln_1 fresh i);
        attn := a;
        ln_2 := nn_LayerNorm (d_model cfg) (fresh_ln_2 fresh i);
        mlp := GPTMLP_init cfg fresh i;
        resid_attn_dropout := nn_Dropout (fresh_resid_attn_dropout fresh i);
        resid_mlp_dropout := nn_Dropout (fresh_resid_mlp_dropout fresh i) |}.

(** ** [MosaicModel] *)

Record Transformer : Type := {
  wte : Embedding;
  wpe : option Embedding;      (* absent when alibi is on *)
  emb_drop : module;
  blocks : list GPTBlock;
  ln_f : module
}.

Inductive buffer : Type :=
| BufFloat (t : t4 Q)
| BufBool (t : t4 bool).

Record MosaicModel : Type := {
  cfg : Config;
  alibi : bool;
  alibi_bias_max : Q;
  embedding_fraction : Q;
  transformer : Transformer;
  buffers : list (string * buffer)   (* filled by [register_buffer] *)
}.

Definition register_buffer (nm : string) (v : buffer) (self : MosaicModel)
  : MosaicModel :=
  {| cfg := cfg self;
     alibi := alibi self;
     alibi_bias_max := alibi_bias_max self;
     embedding_fraction := embedding_fraction self;
     transformer := transformer self;
     buffers := buffers self ++ [(nm, v)] |}.

Fixpoint lookup_buffer (nm : string) (l : list (string * buffer))
  : option buffer :=
  match l with
  | [] => None
  | (n, v) :: l' => if String.eqb n nm then Some v else lookup_buffer nm l'
  end.

Definition float_buffer (self : MosaicModel) (nm : string) : result (t4 Q) :=
  match lookup_buffer nm (buffers self) with
  | Some (BufFloat t) => Ok t
  | Some (BufBool _) => Raise (TypeError nm)
  | None => Raise (TypeError nm)
  end.

Definition bool_buffer (self : MosaicModel) (nm : string) : result (t4 bool) :=
  match lookup_buffer nm (buffers self) with
  | Some (BufBool t) => Ok t
  | Some (BufFloat _) => Raise (TypeError nm)
  | None => Raise (TypeError nm)
  end.

Fixpoint mapM {A B} (f : A -> result B) (l : list A) : result (list B) :=
  match l with
  | [] => Ok []
  | a :: l' => b <- f a ;; bs <- mapM f l' ;; Ok (b :: bs)
  end.

Definition Qlt_bool (x y : Q) : bool := negb (Qle_bool y x).

Section Init.

Variable pow2 : Q -> Q.

(** [MosaicModel.__init__].  The weights that [param_init_fn] draws are
    the ones inside [fresh]. *)
Definition MosaicModel_init (cfg : Config) (fresh : Fresh)
  : result MosaicModel :=
  assert (String.eqb (name cfg) "mosaic_model")
         "Tried to build MosaicModel model with another cfg.name" ;;;
  let alibi := cfg_get (cfg_alibi cfg) false in
  let alibi_bias_max := cfg_get (cfg_alibi_bias_max cfg) 8%Q in
  let embedding_fraction := cfg_get (cfg_embedding_fraction cfg) 1%Q in
  assert (Qlt_bool 0 embedding_fraction && Qle_bool embedding_fraction 1)
         "model.embedding_fraction must be between 0 (exclusive) and 1 (inclusive)!" ;;;
  let wte := {| weight := T2 (vocab_size cfg) (d_model cfg)
                             (fresh_wte fresh) |} in
  let wpe := if alibi then None
             else Some {| weight := T2 (max_seq_len cfg) (d_model cfg)
                                       (fresh_wpe fresh) |} in
  blocks <- mapM (GPTBlock_init cfg fresh) (seq 0 (n_layers cfg)) ;;
  let self :=
    {| cfg := cfg;
       alibi := alibi;
       alibi_bias_max := alibi_bias_max;
       embedding_fraction := embedding_fraction;
       transformer :=
         {| wte := wte;
            wpe := wpe;
            emb_drop := nn_Dropout (fresh_emb_drop fresh);
            blocks := blocks;
            ln_f := nn_LayerNorm (d_model cfg) (fresh_ln_f fresh) |};
       buffers := [] |} in
  a <- alibi_bias pow2 (n_heads cfg) (max_seq_len cfg) true alibi_bias_max ;;
  let self := register_buffer "alibi_mask" (BufFloat a) self in
  a <- float_buffer self "alibi_mask" ;;
  let self := register_buffer "zeros_mask" (BufFloat (zeros_like a)) self in
  let self :=
    register_buffer "causal_mask"
      (BufBool (unsqueeze_0_0
                  (tril false (ones (max_seq_len cfg) (max_seq_len cfg)))))
      self in
  Ok self.

End Init.

(** *** Methods

    A method runs on the model object: it may read and replace [self], and
    it returns a value or raises. *)

Definition method (A : Type) : Type := MosaicModel -> result A * MosaicModel.

Definition mret {A} (a : A) : method A := fun self => (Ok a, self).

Definition mbind {A B} (m : method A) (k : A -> method B) : method B :=
  fun self =>
    match m self with
    | (Ok a, self') => k a self'
    | (Raise e, self') => (Raise e, self')
    end.

Definition lift {A} (r : result A) : method A := fun self => (r, self).

Definition attr {A} (f : MosaicModel -> A) : method A :=
  fun self => (Ok (f self), self).

Definition self_float_buffer (nm : string) : method (t4 Q) :=
  fun self => (float_buffer self nm, self).

Definition self_bool_buffer (nm : string) : method (t4 bool) :=
  fun self => (bool_buffer self nm, self).

Declare Scope method_scope.
Delimit Scope method_scope with method.
Notation "x <- m ;; k" := (mbind m (fun x => k))
  (at level 61, m at next level, right associativity) : method_scope.
Notation "m ;;; k" := (mbind m (fun _ => k))
  (at level 61, right associativity) : method_scope.

Definition build_attn_bias (batch_size seq_length : nat)
           (attention_mask bidirectional_mask : option (t2 Z))
  : method (t4 xfloat) :=
  (use_alibi <- attr alibi ;;
   bias <- (if use_alibi : bool
            then b <- self_float_buffer "alibi_mask" ;;
                 mret (slice_last2 seq_length b)
            else b <- self_float_buffer "zeros_mask" ;;
                 mret (slice_last2 seq_length b)) ;;
   mask <- match bidirectional_mask with
           | None =>
               c <- self_bool_buffer "causal_mask" ;;
               mret (slice_last2 seq_length c)
           | Some bidirectional_mask =>
               let bidirectional_mask := to_bool bidirectional_mask in
               lift (assert (eqb_shape2 (shape2 bidirectional_mask)
                                        (batch_size, seq_length)) "") ;;;
               c <- self_bool_buffer "causal_mask" ;;
               lift (logical_or (slice_last2 seq_length c)
                                (unsqueeze_1_1 bidirectional_mask))
           end ;;
   mask <- match attention_mask with
           | None => mret mask
           | Some attention_mask =>
               let attention_mask := to_bool attention_mask in
               if negb (all attention_mask)
               then
                 lift (assert (eqb_shape2 (shape2 attention_mask)
                                          (batch_size, seq_length)) "") ;;;
                 lift (logical_and mask (unsqueeze_1_1 attention_mask))
               else mret mask
           end ;;
   lift (where_neg_inf mask bias))%method.

(** *** The tied output projection *)

(** Logits and hidden states: rank 3, or rank 2 after the rows of the
    loss-generating tokens have been selected. *)
Inductive activations : Type :=
| Act3 (x : t3 dual)
| Act2 (x : t2 dual).

(** The sum over [c < d] of [x c * w c]. *)
Definition dot (d : nat) (x w : nat -> dual) : dual :=
  fold_left (fun acc c => dadd acc (dmul (x c) (w c))) (seq 0 d) dzero.

(** [F.linear(x, weight, bias)]: [y = x @ weight.T + bias]. *)
Definition F_linear (x : activations) (W : t2 dual) (bias : option (t1 dual))
  : result activations :=
  let add_bias (j : nat) (y : dual) : dual :=
    match bias with
    | None => y
    | Some b => dadd y (at1 b j)
    end in
  match x with
  | Act3 x =>
      if n2 x =? cols W
      then Ok (Act3 (T3 (n0 x) (n1 x) (rows W)
                        (fun b i j =>
                           add_bias j (dot (n2 x) (at3 x b i) (at2 W j)))))
      else Raise (RuntimeError "mat1 and mat2 shapes cannot be multiplied")
  | Act2 x =>
      if cols x =? cols W
      then Ok (Act2 (T2 (rows x) (rows W)
                        (fun i j =>
                           add_bias j (dot (cols x) (at2 x i) (at2 W j)))))
      else Raise (RuntimeError "mat1 and mat2 shapes cannot be multiplied")
  end.



(** *** [MosaicModel.forward] *)

(** [x.view(-1, x.shape[-1])] and [t.view(-1)] *)
Definition view_rows {A} (x : t3 A) : t2 A :=
  T2 (n0 x * n1 x) (n2 x) (fun r c => at3 x (r / n1 x) (r mod n1 x) c).

Definition view_flat {A} (t : t2 A) : t1 A :=
  T1 (rows t * cols t) (fun j => at2 t (j / cols t) (j mod cols t)).

(** [x[mask]] for a rank-1 boolean mask over the rows of [x]. *)
Definition true_indices (mask : t1 bool) : list nat :=
  filter (at1 mask) (seq 0 (len1 mask)).

Definition index_rows {A} (x : t2 A) (mask : t1 bool) : result (t2 A) :=
  if rows x =? len1 mask
  then let idx := true_indices mask in
       Ok (T2 (List.length idx) (cols x) (fun r c => at2 x (nth r idx 0) c))
  else Raise (IndexError "The shape of the mask does not match the indexed tensor").

(** [x * f + x.detach() * (1 - f)] *)
Definition embedding_mix (f : Q) (x : t3 dual) : t3 dual :=
  map3 (fun v => dadd (dscale v f) (dscale (detach v) (1 - f)%Q)) x.

(** Lines 260-266: the input of [emb_drop]. *)
Definition embedding_stage (f : Q) (x : t3 dual) : t3 dual :=
  if Qeq_bool f 1 then x else embedding_mix f x.

Fixpoint run_blocks (bs : list GPTBlock) (x : t3 dual) (attn_bias : t4 xfloat)
  : result (t3 dual) :=
  match bs with
  | [] => Ok x
  | block :: bs' =>
      x <- GPTBlock_forward block x attn_bias ;;
      run_blocks bs' x attn_bias
  end.

Definition seq_len_message : string :=
  "Cannot forward input with seq_len larger than the max_seq_len this model supports".

(** Lines 247-278 of [forward]: everything before the output projection.
    The result is the final hidden states and the attention bias. *)
Definition MosaicModel_hidden_states (input_ids : t2 Z)
           (attention_mask bidirectional_mask : option (t2 Z))
           (loss_generating_tokens : option (t2 Z))
  : method (activations * t4 xfloat) :=
  (let B := rows input_ids in
   let S := cols input_ids in
   c <- attr cfg ;;
   lift (assert (S <=? max_seq_len c) seq_len_message) ;;;
   tr <- attr transformer ;;
   tok_emb <- lift (Embedding_forward (wte tr) input_ids) ;;
   use_alibi <- attr alibi ;;
   x <- (if use_alibi : bool then mret tok_emb
         else
           let pos := T2 1 S (fun _ i => Z.of_nat i) in
           match wpe tr with
           | None => lift (Raise (AttributeError "wpe"))
           | Some wpe =>
               pos_emb <- lift (Embedding_forward wpe pos) ;;
               lift (add3 tok_emb pos_emb)
           end) ;;
   f <- attr embedding_fraction ;;
   x <- lift (forward_of (emb_drop tr) (embedding_stage f x)) ;;
   attn_bias <- build_attn_bias B S attention_mask bidirectional_mask ;;
   x <- lift (run_blocks (blocks tr) x attn_bias) ;;
   x <- lift (forward_of (ln_f tr) x) ;;
   x <- match loss_generating_tokens with
        | None => mret (Act3 x)
        | Some loss_generating_tokens =>
            let loss_generating_tokens := to_bool loss_generating_tokens in
            lift (assert (eqb_shape2 (n0 x, n1 x)
                                     (shape2 loss_generating_tokens)) "") ;;;
            x <- lift (index_rows (view_rows x)
                                  (view_flat loss_generating_tokens)) ;;
            mret (Act2 x)
        end ;;
   mret (x, attn_bias))%method.

(** [MosaicModel.forward]; lines 280-282 are the output projection. *)
Definition MosaicModel_forward (input_ids : t2 Z)
           (attention_mask bidirectional_mask : option (t2 Z))
           (loss_generating_tokens : option (t2 Z))
  : method (activations * t4 xfloat) :=
  (xb <- MosaicModel_hidden_states input_ids attention_mask
                                   bidirectional_mask
                                   loss_generating_tokens ;;
   let '(x, attn_bias) := xb in
   (* output embedding weight tied to input embedding *)
   tr <- attr transformer ;;
   logits <- lift (F_linear x (weight (wte tr)) None) ;;
   mret (logits, attn_bias))%method.

(** *** Parameters *)

Definition string_of_nat (n : nat) : string :=
  NilEmpty.string_of_uint (Nat.to_uint n).

Definition Embedding_parameters (self : Embedding) : param_list :=
  [("weight", [rows (weight self); cols (weight self)])].

Fixpoint ModuleList_parameters (i : nat) (bs : list GPTBlock) : param_list :=
  match bs with
  | [] => []
  | b :: bs' =>
      prefix (string_of_nat i) (GPTBlock_parameters b)
      ++ ModuleList_parameters (S i) bs'
  end.

Definition Transformer_parameters (tr : Transformer) : param_list :=
  prefix "wte" (Embedding_parameters (wte tr))
  ++ match wpe tr with
     | None => []
     | Some e => prefix "wpe" (Embedding_parameters e)
     end
  ++ prefix "emb_drop" (parameters_of (emb_drop tr))
  ++ prefix "blocks" (ModuleList_parameters 0 (blocks tr))
  ++ prefix "ln_f" (parameters_of (ln_f tr)).

(** [self.named_parameters()] of a [MosaicModel]. *)
Definition named_parameters (self : MosaicModel) : param_list :=
  prefix "transformer" (Transformer_parameters (transformer self)).

(** [self.named_buffers()] *)
Definition named_buffers (self : MosaicModel) : list (string * buffer) :=
  buffers self.

(** ** [ComposerMosaicModel] *)

(** A batch is a dictionary; ['input_ids'] is always present. *)
Record Batch : Type := {
  input_ids : t2 Z;
  labels : option (t2 Z);
  batch_attention_mask : option (t2 Z);
  batch_bidirectional_mask : option (t2 Z)
}.

Record ComposerMosaicModel : Type := {
  model : MosaicModel;
  num_fwd_flops_cache : option Z     (* [self.__num_fwd_flops] *)
}.

Inductive targets : Type :=
| Targets1 (t : t1 Z)
| Targets2 (t : t2 Z).

Definition ignore_label : Z := (-100)%Z.

(** [torch.roll(t, shifts)] without [dims]: the tensor is flattened, rolled
    and restored to its shape. *)
Definition torch_roll {A} (shifts : Z) (t : t2 A) : t2 A :=
  T2 (rows t) (cols t)
     (fun b i =>
        let n := Z.of_nat (rows t * cols t) in
        let j := Z.to_nat ((Z.of_nat (b * cols t + i) - shifts) mod n) in
        at2 t (j / cols t) (j mod cols t)).

(** [t[:, -1] = v] *)
Definition set_last_column {A} (v : A) (t : t2 A) : result (t2 A) :=
  if cols t =? 0
  then Raise (IndexError "index -1 is out of bounds for dimension 1 with size 0")
  else Ok (T2 (rows t) (cols t)
              (fun b i => if i =? cols t - 1 then v else at2 t b i)).

(** [torch.not_equal(t, v)], as a byte tensor. *)
Definition not_equal (v : Z) (t : t2 Z) : t2 Z :=
  map2 (fun z => if (z =? v)%Z then 0%Z else 1%Z) t.

(** [t[mask]] on rank-1 tensors. *)
Definition index1 {A} (t : t1 A) (mask : t1 bool) : t1 A :=
  let idx := true_indices mask in
  T1 (List.length idx) (fun r => at1 t (nth r idx 0)).

Definition get_targets (batch : Batch) : result targets :=
  match labels batch with
  | Some l =>
      let targets := view_flat l in
      Ok (Targets1
            (index1 targets
                    (map1 (fun z => negb (z =? ignore_label)%Z) targets)))
  | None =>
      let targets := torch_roll (-1) (input_ids batch) in
      targets <- set_last_column ignore_label targets ;;
      Ok (Targets2 targets)
  end.

Definition outputs_shape0 (x : activations) : nat :=
  match x with Act3 x => n0 x | Act2 x => rows x end.

Definition targets_shape0 (t : targets) : nat :=
  match t with Targets1 t => len1 t | Targets2 t => rows t end.

(** [outputs.view(-1, outputs.size(-1))] and [targets.view(-1)] *)
Definition outputs_view (x : activations) : t2 dual :=
  match x with Act3 x => view_rows x | Act2 x => x end.

Definition targets_view (t : targets) : t1 Z :=
  match t with Targets1 t => t | Targets2 t => view_flat t end.

Inductive loss_value : Type :=
| Loss (v : dual)
| NaN.

Section Loss.

(** [nll row c]: minus the log-softmax of the logits [row] at class [c]. *)
Variable nll : list dual -> nat -> dual.

(** [F.cross_entropy(input, target, ignore_index)], mean reduction. *)
Definition cross_entropy (input : t2 dual) (target : t1 Z) (ignore_index : Z)
  : result loss_value :=
  if negb (rows input =? len1 target)
  then Raise (ValueError "Expected input batch_size to match target batch_size")
  else if negb (forallb
                  (fun i => (at1 target i =? ignore_index)%Z
                            || ((0 <=? at1 target i)%Z
                                && (at1 target i <? Z.of_nat (cols input))%Z))
                  (seq 0 (len1 target)))
  then Raise (IndexError "Target out of bounds")
  else
    let kept := filter (fun i => negb (at1 target i =? ignore_index)%Z)
                       (seq 0 (len1 target)) in
    let terms :=
      map (fun i => nll (map (at2 input i) (seq 0 (cols input)))
                        (Z.to_nat (at1 target i))) kept in
    match kept with
    | [] => Ok NaN
    | _ => Ok (Loss (dscale (fold_left dadd terms dzero)
                            (1 / inject_Z (Z.of_nat (List.length kept)))%Q))
    end.

Definition loss (outputs : activations) (batch : Batch) : result loss_value :=
  targets <- get_targets batch ;;
  assert (outputs_shape0 outputs =? targets_shape0 targets) "" ;;;
  cross_entropy (outputs_view outputs) (targets_view targets) ignore_label.

End Loss.

Definition ComposerMosaicModel_forward (batch : Batch)
           (self : ComposerMosaicModel)
  : result activations * ComposerMosaicModel :=
  let loss_generating_tokens :=
    match labels batch with
    | Some l => Some (not_equal ignore_label l)
    | None => None
    end in
  let '(r, m) :=
    MosaicModel_forward (input_ids batch) (batch_attention_mask batch)
                        (batch_bidirectional_mask batch)
                        loss_generating_tokens (model self) in
  (r' <- r ;; Ok (fst r'),
   {| model := m; num_fwd_flops_cache := num_fwd_flops_cache self |}).

(** [sum(p.numel() for p in self.parameters())] *)
Definition n_params (self : ComposerMosaicModel) : Z :=
  fold_left (fun acc p => (acc + Z.of_nat (numel (snd p)))%Z)
            (named_parameters (model self)) 0%Z.

(** The property [num_fwd_flops]; a cached value counts when it is truthy. *)
Definition num_fwd_flops (self : ComposerMosaicModel)
  : Z * ComposerMosaicModel :=
  let compute :=
    let n_params := n_params self in
    let params_flops_per_token := (2 * n_params)%Z in
    let params_flops_per_seq :=
      (params_flops_per_token * Z.of_nat (max_seq_len (cfg (model self))))%Z in
    let attn_flops_per_seq :=
      (Z.of_nat (n_layers (cfg (model self))) * 2 * 2
       * (Z.of_nat (d_model (cfg (model self)))
          * Z.of_nat (max_seq_len (cfg (model self))) ^ 2))%Z in
    let v := (params_flops_per_seq + attn_flops_per_seq)%Z in
    (v, {| model := model self; num_fwd_flops_cache := Some v |}) in
  match num_fwd_flops_cache self with
  | Some v => if (v =? 0)%Z then compute else (v, self)
  | None => compute
  end.

Section ComposerInit.

Variable pow2 : Q -> Q.

Definition ComposerMosaicModel_init (cfg : Config) (fresh : Fresh)
  : result ComposerMosaicModel :=
  m <- MosaicModel_init pow2 cfg fresh ;;
  Ok {| model := m; num_fwd_flops_cache := None |}.

End ComposerInit.

(** Successive reads of the property, threading the object. *)
Fixpoint read_num_fwd_flops (n : nat) (self : ComposerMosaicModel)
  : list Z * ComposerMosaicModel :=
  match n with
  | O => ([], self)
  | S n' =>
      let '(v, self') := num_fwd_flops self in
      let '(vs, self'') := read_num_fwd_flops n' self' in
      (v :: vs, self'')
  end.

(** ** Entries of the bias templates *)

(** The entry of [alibi_bias(n_heads, seq_len, full=True)] at head [h],
    query [q] and key [k], as the source computes it. *)
Definition alibi_entry (pow2 : Q -> Q) (n_heads seq_len : nat)
           (alibi_bias_max : Q) (h q k : nat) : Q :=
  (Qabs (inject_Z (1 - Z.of_nat seq_len + Z.of_nat k)
         - inject_Z (1 - Z.of_nat seq_len + Z.of_nat q)) * (-1)
   * (1 / pow2 (inject_Z (1 + Z.of_nat h)
                * (alibi_bias_max / inject_Z (Z.of_nat n_heads)))))%Q.

(** The value of the [causal_mask] buffer: lower-triangular ones. *)
Definition causal_template (L : nat) : t4 bool :=
  unsqueeze_0_0 (tril false (ones L L)).

(** The entry of [t] that an index of a tensor [t] broadcasts to reads. *)
Definition at4_broadcast {A} (t : t4 A) (b h q k : nat) : A :=
  at4 t (bidx (dim0 t) b) (bidx (dim1 t) h) (bidx (dim2 t) q)
        (bidx (dim3 t) k).

(** Position [k] of batch element [b] holds a non-zero byte of [m]. *)
Definition marked (m : t2 Z) (b k : nat) : Prop :=
  exists z, get2 m b k = Some z /\ z <> 0%Z.

(** Position [k] of batch element [b] is not padding: there is no
    attention mask, or its entry there is non-zero. *)
Definition not_padding (am : option (t2 Z)) (b k : nat) : Prop :=
  match am with
  | None => True
  | Some am => marked am b k
  end.

(** A library module that always returns, with the shape of its input. *)
Definition shape_preserving (f : t3 dual -> result (t3 dual)) : Prop :=
  forall x, exists y, f x = Ok y /\ shape3 y = shape3 x.

(** The library modules inside the model always return and keep shapes. *)
Definition well_behaved_modules (M : MosaicModel) : Prop :=
  shape_preserving (forward_of (emb_drop (transformer M)))
  /\ Forall (fun blk => forall bias,
                 shape_preserving (fun x => GPTBlock_forward blk x bias))
            (blocks (transformer M))
  /\ shape_preserving (forward_of (ln_f (transformer M))).

(** An optional mask has the shape [(B, S)] of the input. *)
Definition well_shaped (B S : nat) (m : option (t2 Z)) : Prop :=
  match m with
  | None => True
  | Some m => shape2 m = (B, S)
  end.


(** ** Vocabulary for the further properties *)

(** The attention implementation named by the configuration can be built. *)
Definition attention_available (c : Config) : Prop :=
  (attn_impl c = "triton" /\ (attn_pdrop c == 0)%Q) \/ attn_impl c = "torch".

(** Key [k] of batch element [b] is marked in the bidirectional mask. *)
Definition key_marked (bm : option (t2 Z)) (b k : nat) : bool :=
  match bm with
  | None => false
  | Some m => negb (at2 m b k =? 0)%Z
  end.

(** Key [k] of batch element [b] is not padding. *)
Definition key_kept (am : option (t2 Z)) (b k : nat) : bool :=
  match am with
  | None => true
  | Some m => negb (at2 m b k =? 0)%Z
  end.

(** The entry of the bias template the model uses: alibi or zeros. *)
Definition template_bias (pow2 : Q -> Q) (M : MosaicModel) (h q k : nat) : Q :=
  if alibi M
  then alibi_entry pow2 (n_heads (cfg M)) (max_seq_len (cfg M))
                   (alibi_bias_max M) h q k
  else 0%Q.


(** The entries of a rank-1 tensor, in order. *)
Definition entries1 {A} (t : t1 A) : list A := map (at1 t) (seq 0 (len1 t)).

(** The number of scalars in a list of parameters. *)
Definition total_numel (l : param_list) : Z :=
  fold_left (fun acc p => (acc + Z.of_nat (numel (snd p)))%Z) l 0%Z.

(** The number of scalars in the parameters of one block with torch
    attention. *)
Definition torch_block_numel (c : Config) : Z :=
  (4 * Z.of_nat (d_model c) ^ 2
   + 2 * Z.of_nat (mlp_ratio c) * Z.of_nat (d_model c) ^ 2
   + Z.of_nat (mlp_ratio c) * Z.of_nat (d_model c)
   + 9 * Z.of_nat (d_model c))%Z.

(** ** A small model, for concrete runs *)

Module Example.

Definition id_forward : t3 dual -> result (t3 dual) := fun x => Ok x.

Definition fresh : Fresh :=
  {| fresh_wte := fun i c => D (inject_Z (Z.of_nat (i + c))) 1%Q;
     fresh_wpe := fun i c => D (inject_Z (Z.of_nat i)) 0%Q;
     fresh_emb_drop := id_forward;
     fresh_ln_f := id_forward;
     fresh_ln_1 := fun _ => id_forward;
     fresh_ln_2 := fun _ => id_forward;
     fresh_mlp_up := fun _ => id_forward;
     fresh_mlp_act := fun _ => id_forward;
     fresh_mlp_down := fun _ => id_forward;
     fresh_resid_attn_dropout := fun _ => id_forward;
     fresh_resid_mlp_dropout := fun _ => id_forward;
     fresh_torch_mhsa := fun _ x _ => Ok x;
     fresh_flash_mhsa := fun _ x _ => Ok x;
     flash_mha_parameters :=
       [("Wqkv.weight", [6; 2]); ("Wqkv.bias", [6]);
        ("out_proj.weight", [2; 2]); ("out_proj.bias", [2])] |}.

Definition config (use_alibi : bool) (fraction : option Q) : Config :=
  {| name := "mosaic_model";
     d_model := 2; n_heads := 2; n_layers := 1;
     max_seq_len := 4; vocab_size := 5; mlp_ratio := 4;
     attn_impl := "torch"; attn_pdrop := 0%Q; device := "cpu";
     cfg_alibi := Some use_alibi;
     cfg_alibi_bias_max := None;
     cfg_embedding_fraction := fraction |}.

(** [2 ** m] at the integer exponents the example uses. *)
Definition pow2 (x : Q) : Q := (2 ^ (Qnum x / Zpos (Qden x)))%Q.

(** Inputs: two sequences of three tokens, a prompt segment, a padded
    batch, an all-ones mask and a sequence that is too long. *)
Definition ids : t2 Z := of_rows 0%Z 3 [[1; 2; 3]; [4; 0; 1]]%Z.
Definition long_ids : t2 Z := of_rows 0%Z 5 [[1; 2; 3; 4; 0]]%Z.
Definition segment : t2 Z := of_rows 0%Z 3 [[1; 1; 0]; [0; 0; 0]]%Z.
Definition padded : t2 Z := of_rows 0%Z 3 [[1; 1; 0]; [1; 1; 1]]%Z.
Definition all_ones : t2 Z := of_rows 0%Z 3 [[1; 1; 1]; [1; 1; 1]]%Z.
Definition batch : Batch :=
  {| input_ids := ids; labels := None;
     batch_attention_mask := None; batch_bidirectional_mask := None |}.
(** A stand-in for minus log-softmax: the logit of the class itself. *)
Definition nll (row : list dual) (cl : nat) : dual := nth cl row dzero.

(** The entries of a tensor as nested lists, for reading results. *)
Definition entries4 {A} (t : t4 A) : list (list (list (list A))) :=
  map (fun b => map (fun h => map (fun q => map (fun k => at4 t b h q k)
        (seq 0 (dim3 t))) (seq 0 (dim2 t))) (seq 0 (dim1 t))) (seq 0 (dim0 t)).

Definition entries2 {A} (t : t2 A) : list (list A) :=
  map (fun i => map (fun j => at2 t i j) (seq 0 (cols t))) (seq 0 (rows t)).

(** The bias that the example model (alibi off) builds. *)
Definition bias_of (B S : nat) (am bm : option (t2 Z))
  : option (list (list (list (list xfloat)))) :=
  match MosaicModel_init pow2 (config false None) fresh with
  | Ok M => match fst (build_attn_bias B S am bm M) with
            | Ok r => Some (entries4 r)
            | Raise _ => None
            end
  | Raise _ => None
  end.

End Example.

(** ** Further inputs *)

Module Cases.

(** The first sequence is padded on the left. *)
Definition left_padded : t2 Z := of_rows 0%Z 3 [[0; 0; 1]; [1; 1; 1]]%Z.
(** A mask of the wrong width, with a zero in it. *)
Definition narrow : t2 Z := of_rows 0%Z 2 [[1; 0]; [1; 1]]%Z.
Definition label_tensor : t2 Z :=
  of_rows 0%Z 3 [[-100; 2; 3]; [-100; -100; 1]]%Z.
Definition labelled : Batch :=
  {| input_ids := Example.ids; labels := Some label_tensor;
     batch_attention_mask := None; batch_bidirectional_mask := None |}.
Definition no_tokens : Batch :=
  {| input_ids := of_rows 0%Z 0 [[]; []]; labels := None;
     batch_attention_mask := None; batch_bidirectional_mask := None |}.
Definition long_segment : t2 Z := of_rows 0%Z 5 [[1; 1; 0; 0; 0]]%Z.
(** One block, a hidden state and a bias to run it on. *)
Definition block : GPTBlock :=
  {| ln_1 := nn_LayerNorm 2 Example.id_forward;
     attn := TorchAttention (fun x _ => Ok x)
                            (nn_MultiheadAttention_parameters 2);
     ln_2 := nn_LayerNorm 2 Example.id_forward;
     mlp := GPTMLP_init (Example.config false None) Example.fresh 0;
     resid_attn_dropout := nn_Dropout Example.id_forward;
     resid_mlp_dropout := nn_Dropout Example.id_forward |}.
Definition hidden : t3 dual :=
  T3 1 2 2 (fun _ i j => D (inject_Z (Z.of_nat (i + j))) 0%Q).
Definition no_bias : t4 xfloat := T4 1 1 2 2 (fun _ _ _ _ => Fin 0%Q).

(** A configuration for another model class. *)
Definition misnamed : Config :=
  {| name := "hf_causal_lm";
     d_model := 2; n_heads := 2; n_layers := 1;
     max_seq_len := 4; vocab_size := 5; mlp_ratio := 4;
     attn_impl := "torch"; attn_pdrop := 0%Q; device := "cpu";
     cfg_alibi := None;
     cfg_alibi_bias_max := None;
     cfg_embedding_fraction := None |}.

End Cases.

(** * Properties *)

(** ** The error monad and broadcasting *)

Lemma bind_Ok {A B} (m : result A) (k : A -> result B) (b : B) :
  bind m k = Ok b -> exists a, m = Ok a /\ k a = Ok b.
Proof.
  destruct m as [a|e]; simpl; intros H; [eauto | discriminate].
Qed.

Lemma assert_Ok (c : bool) (msg : string) (u : unit) :
  assert c msg = Ok u -> c = true.
Proof. destruct c; simpl; [reflexivity | discriminate]. Qed.

Lemma bdim_one_l (n : nat) : bdim 1 n = Ok n.
Proof.
  unfold bdim. destruct (Nat.eqb_spec 1 n) as [<-|_]; reflexivity.
Qed.

Lemma bdim_one_r (n : nat) : bdim n 1 = Ok n.
Proof.
  unfold bdim. destruct (Nat.eqb_spec n 1) as [->|_]; reflexivity.
Qed.

Lemma bdim_same (n : nat) : bdim n n = Ok n.
Proof. unfold bdim. now rewrite Nat.eqb_refl. Qed.

Lemma bdim_Ok (a b e : nat) :
  bdim a b = Ok e -> (a = e \/ a = 1) /\ (b = e \/ b = 1).
Proof.
  unfold bdim.
  destruct (Nat.eqb_spec a b); [intros [= <-]; subst; auto|].
  destruct (Nat.eqb_spec a 1); [intros [= <-]; auto|].
  destruct (Nat.eqb_spec b 1); [intros [= <-]; auto|discriminate].
Qed.

Lemma bidx_lt (d i : nat) : i < d -> bidx d i = i.
Proof.
  unfold bidx. destruct (Nat.eqb_spec d 1); [lia | reflexivity].
Qed.

Lemma bidx_one (i : nat) : bidx 1 i = 0.
Proof. reflexivity. Qed.

(** ** The bias templates and [__init__] *)

Lemma alibi_bias_full (pow2 : Q -> Q) (H L : nat) (abm : Q) :
  H <> 0 ->
  exists a, alibi_bias pow2 H L true abm = Ok a
            /\ shape4 a = (1, H, L, L)
            /\ forall b h q k, h < H -> q < L -> k < L ->
                 at4 a b h q k = alibi_entry pow2 H L abm h q k.
Proof.
  intros HH. unfold alibi_bias, broadcast. cbn [bind map1 view_111n view_11n1 view_1n11 dim0 dim1 dim2 dim3 len1 arange map4].
  replace (Z.to_nat (1 - (1 - Z.of_nat L))) with L by lia.
  replace (Z.to_nat (Z.of_nat H + 1 - 1)) with H by lia.
  rewrite !bdim_same, bdim_one_l, bdim_one_r. cbn [bind dim0 dim1 dim2 dim3 map4].
  destruct (Nat.eqb_spec H 0) as [|_]; [contradiction|]. cbn [bind].
  rewrite !bdim_same, bdim_one_l, !bdim_one_r. cbn [bind].
  eexists; split; [reflexivity|]. split; [reflexivity|].
  intros b h q k Hh Hq Hk. cbn [at4 at1].
  rewrite !bidx_one, !(bidx_lt Hh), !(bidx_lt Hq), !(bidx_lt Hk).
  cbn [at4 at1 map4 map1 view_111n view_11n1 view_1n11 arange].
  rewrite ?bidx_one, ?(bidx_lt Hq), ?(bidx_lt Hk).
  unfold alibi_entry. reflexivity.
Qed.

Lemma MosaicModel_init_Ok (pow2 : Q -> Q) (c : Config) (fresh : Fresh)
      (M : MosaicModel) :
  MosaicModel_init pow2 c fresh = Ok M ->
  exists a bs,
    alibi_bias pow2 (n_heads c) (max_seq_len c) true
               (cfg_get (cfg_alibi_bias_max c) 8%Q) = Ok a
    /\ mapM (GPTBlock_init c fresh) (seq 0 (n_layers c)) = Ok bs
    /\ Qlt_bool 0 (cfg_get (cfg_embedding_fraction c) 1%Q)
       && Qle_bool (cfg_get (cfg_embedding_fraction c) 1%Q) 1 = true
    /\ M = {| cfg := c;
              alibi := cfg_get (cfg_alibi c) false;
              alibi_bias_max := cfg_get (cfg_alibi_bias_max c) 8%Q;
              embedding_fraction := cfg_get (cfg_embedding_fraction c) 1%Q;
              transformer :=
                {| wte := {| weight := T2 (vocab_size c) (d_model c)
                                          (fresh_wte fresh) |};
                   wpe := if cfg_get (cfg_alibi c) false then None
                          else Some {| weight := T2 (max_seq_len c) (d_model c)
                                                    (fresh_wpe fresh) |};
                   emb_drop := nn_Dropout (fresh_emb_drop fresh);
                   blocks := bs;
                   ln_f := nn_LayerNorm (d_model c) (fresh_ln_f fresh) |};
              buffers :=
                [("alibi_mask", BufFloat a);
                 ("zeros_mask", BufFloat (zeros_like a));
                 ("causal_mask", BufBool (causal_template (max_seq_len c)))] |}.
Proof.
  unfold MosaicModel_init. intros H.
  apply bind_Ok in H as (u & Hname & H).
  apply bind_Ok in H as (u' & Hfrac & H).
  apply bind_Ok in H as (bs & Hbs & H).
  apply bind_Ok in H as (a & Ha & H).
  cbn in H. injection H as <-.
  apply assert_Ok in Hfrac.
  exists a, bs. repeat split; assumption.
Qed.

Lemma alibi_bias_Ok (pow2 : Q -> Q) (H L : nat) (abm : Q) (a : t4 Q) :
  alibi_bias pow2 H L true abm = Ok a ->
  H <> 0
  /\ shape4 a = (1, H, L, L)
  /\ forall b h q k, h < H -> q < L -> k < L ->
       at4 a b h q k = alibi_entry pow2 H L abm h q k.
Proof.
  intros Ha. destruct (Nat.eq_dec H 0) as [->|HH].
  - exfalso. unfold alibi_bias in Ha.
    apply bind_Ok in Ha as (x & _ & Ha). cbn in Ha. discriminate.
  - destruct (alibi_bias_full pow2 L abm HH) as (a' & Ha' & Hs & He).
    rewrite Ha in Ha'. injection Ha' as <-. auto.
Qed.



Lemma MosaicModel_init_reads (pow2 : Q -> Q) (c : Config) (fresh : Fresh)
      (M : MosaicModel) :
  MosaicModel_init pow2 c fresh = Ok M ->
  cfg M = c
  /\ alibi M = cfg_get (cfg_alibi c) false
  /\ alibi_bias_max M = cfg_get (cfg_alibi_bias_max c) 8%Q
  /\ embedding_fraction M = cfg_get (cfg_embedding_fraction c) 1%Q
  /\ n_heads c <> 0
  /\ exists a,
      float_buffer M "alibi_mask" = Ok a
      /\ float_buffer M "zeros_mask" = Ok (zeros_like a)
      /\ bool_buffer M "causal_mask" = Ok (causal_template (max_seq_len c))
      /\ shape4 a = (1, n_heads c, max_seq_len c, max_seq_len c)
      /\ forall b h q k, h < n_heads c -> q < max_seq_len c ->
           k < max_seq_len c ->
           at4 a b h q k
           = alibi_entry pow2 (n_heads c) (max_seq_len c)
                         (cfg_get (cfg_alibi_bias_max c) 8%Q) h q k.
Proof.
  intros HM.
  apply MosaicModel_init_Ok in HM as (a & bs & Ha & _ & _ & ->).
  apply alibi_bias_Ok in Ha as (HH & Hshape & Hent).
  repeat (split; [reflexivity || assumption|]).
  exists a. repeat (split; [reflexivity || assumption|]). assumption.
Qed.

Ltac run_method :=
  unfold build_attn_bias, mbind, attr, self_float_buffer, self_bool_buffer,
    mret, lift; cbv beta.


Lemma build_attn_bias_unfold (M : MosaicModel) (B S : nat)
      (am bm : option (t2 Z)) :
  build_attn_bias B S am bm M
  = ((bias <- (b <- (if alibi M then float_buffer M "alibi_mask"
                     else float_buffer M "zeros_mask") ;;
               Ok (slice_last2 S b)) ;;
      mask <- match bm with
              | None =>
                  c <- bool_buffer M "causal_mask" ;; Ok (slice_last2 S c)
              | Some bm =>
                  assert (eqb_shape2 (shape2 (to_bool bm)) (B, S)) "" ;;;
                  c <- bool_buffer M "causal_mask" ;;
                  logical_or (slice_last2 S c) (unsqueeze_1_1 (to_bool bm))
              end ;;
      mask <- match am with
              | None => Ok mask
              | Some am =>
                  if negb (all (to_bool am))
                  then
                    assert (eqb_shape2 (shape2 (to_bool am)) (B, S)) "" ;;;
                    logical_and mask (unsqueeze_1_1 (to_bool am))
                  else Ok mask
              end ;;
      where_neg_inf mask bias), M).
Proof.
  run_method.
  destruct (alibi M); cbv beta;
    [destruct (float_buffer M "alibi_mask") | destruct (float_buffer M "zeros_mask")];
    cbn [bind]; try reflexivity;
    (destruct bm as [bm|];
     [destruct (assert (eqb_shape2 (shape2 (to_bool bm)) (B, S)) "");
      cbn [bind]; try reflexivity|];
     destruct (bool_buffer M "causal_mask"); cbn [bind]; try reflexivity;
     [destruct (logical_or _ _); cbn [bind]; try reflexivity|];
     (destruct am as [am|]; cbn [bind]; try reflexivity;
      destruct (negb (all (to_bool am))); cbn [bind]; try reflexivity;
      destruct (assert (eqb_shape2 (shape2 (to_bool am)) (B, S)) "");
      cbn [bind]; try reflexivity;
      destruct (logical_and _ _); cbn [bind]; reflexivity)).
Qed.

(** ** [build_attn_bias] *)

Lemma all_true_iff (t : t2 bool) :
  all t = true <-> forall i j, i < rows t -> j < cols t -> at2 t i j = true.
Proof.
  unfold all. rewrite forallb_forall. split.
  - intros H i j Hi Hj.
    specialize (H i). rewrite forallb_forall in H.
    apply H; apply in_seq; lia.
  - intros H i Hi. apply forallb_forall. intros j Hj.
    apply in_seq in Hi, Hj. apply H; lia.
Qed.

(** C10.  An attention mask of ones gives the same result as no attention
    mask, for every model, batch size, sequence length and bidirectional
    mask. *)
Theorem all_ones_mask_is_no_mask (M : MosaicModel) (B S : nat) (am : t2 Z)
        (bm : option (t2 Z)) :
  (forall b k, b < rows am -> k < cols am -> at2 am b k = 1%Z) ->
  build_attn_bias B S (Some am) bm M = build_attn_bias B S None bm M.
Proof.
  intros Hones.
  assert (Hall : all (to_bool am) = true).
  { apply all_true_iff. intros i j Hi Hj. cbn in *. now rewrite Hones. }
  rewrite !build_attn_bias_unfold. rewrite Hall. reflexivity.
Qed.

Lemma broadcast_Ok {A B C} (f : A -> B -> C) (a : t4 A) (b : t4 B) (c : t4 C) :
  broadcast f a b = Ok c ->
  exists e0 e1 e2 e3,
    bdim (dim0 a) (dim0 b) = Ok e0 /\ bdim (dim1 a) (dim1 b) = Ok e1
    /\ bdim (dim2 a) (dim2 b) = Ok e2 /\ bdim (dim3 a) (dim3 b) = Ok e3
    /\ c = T4 e0 e1 e2 e3
             (fun i j q k =>
                f (at4_broadcast a i j q k) (at4_broadcast b i j q k)).
Proof.
  unfold broadcast. intros H.
  apply bind_Ok in H as (e0 & H0 & H).
  apply bind_Ok in H as (e1 & H1 & H).
  apply bind_Ok in H as (e2 & H2 & H).
  apply bind_Ok in H as (e3 & H3 & H).
  injection H as <-. exists e0, e1, e2, e3. auto.
Qed.


Lemma bidx_absorb (a e i : nat) :
  a = e \/ a = 1 -> bidx a (bidx e i) = bidx a i.
Proof.
  unfold bidx. intros [->| ->]; [|reflexivity].
  destruct (Nat.eqb_spec e 1); reflexivity.
Qed.


Lemma get4_Some {A} (t : t4 A) (b h q k : nat) (v : A) :
  get4 t b h q k = Some v ->
  b < dim0 t /\ h < dim1 t /\ q < dim2 t /\ k < dim3 t /\ v = at4 t b h q k.
Proof.
  unfold get4.
  destruct (Nat.ltb_spec b (dim0 t)), (Nat.ltb_spec h (dim1 t)),
    (Nat.ltb_spec q (dim2 t)), (Nat.ltb_spec k (dim3 t));
    cbn; intros [= <-] || discriminate. auto.
Qed.

Lemma get2_Some {A} (t : t2 A) (i j : nat) (v : A) :
  get2 t i j = Some v -> i < rows t /\ j < cols t /\ v = at2 t i j.
Proof.
  unfold get2.
  destruct (Nat.ltb_spec i (rows t)), (Nat.ltb_spec j (cols t));
    cbn; intros [= <-] || discriminate. auto.
Qed.

Lemma eqb_shape2_true (s s' : nat * nat) : eqb_shape2 s s' = true -> s = s'.
Proof.
  destruct s, s'. unfold eqb_shape2. cbn. intros H.
  apply andb_prop in H as [H1 H2].
  apply Nat.eqb_eq in H1, H2. congruence.
Qed.

Lemma at4_broadcast_lt {A} (t : t4 A) (b h q k : nat) :
  b < dim0 t -> h < dim1 t -> q < dim2 t -> k < dim3 t ->
  at4_broadcast t b h q k = at4 t b h q k.
Proof.
  intros. unfold at4_broadcast. now rewrite !bidx_lt by assumption.
Qed.



Lemma at4_broadcast_broadcast {A B C} (f : A -> B -> C) (a : t4 A) (b : t4 B)
      (c : t4 C) (i j q k : nat) :
  broadcast f a b = Ok c ->
  at4_broadcast c i j q k
  = f (at4_broadcast a i j q k) (at4_broadcast b i j q k).
Proof.
  intros H.
  apply broadcast_Ok in H as (e0 & e1 & e2 & e3 & E0 & E1 & E2 & E3 & ->).
  apply bdim_Ok in E0 as [A0 B0], E1 as [A1 B1], E2 as [A2 B2], E3 as [A3 B3].
  unfold at4_broadcast. cbn [dim0 dim1 dim2 dim3 at4].
  now rewrite !bidx_absorb by assumption.
Qed.

Lemma at4_broadcast_unsqueeze_1_1 {A} (t : t2 A) (b h q k : nat) :
  b < rows t -> k < cols t ->
  at4_broadcast (unsqueeze_1_1 t) b h q k = at2 t b k.
Proof.
  intros Hb Hk. unfold at4_broadcast. cbn.
  now rewrite !bidx_lt by assumption.
Qed.

Lemma marked_to_bool (m : t2 Z) (b k : nat) :
  marked m b k ->
  b < rows (to_bool m) /\ k < cols (to_bool m) /\ at2 (to_bool m) b k = true.
Proof.
  intros (z & Hz & Hnz). apply get2_Some in Hz as (Hb & Hk & ->).
  cbn. repeat split; try assumption.
  destruct (Z.eqb_spec (at2 m b k) 0); [contradiction | reflexivity].
Qed.

(** The mask that [build_attn_bias] hands to [torch.where] is true at a
    key that is marked and is not padding. *)
Lemma marked_key_is_finite (M : MosaicModel) (B S : nat) (am : option (t2 Z))
      (bm : t2 Z) (r : t4 xfloat) (b h q k : nat) (v : xfloat) :
  fst (build_attn_bias B S am (Some bm) M) = Ok r ->
  marked bm b k -> not_padding am b k ->
  get4 r b h q k = Some v ->
  is_finite v.
Proof.
  intros Hr Hbm Ham Hv.
  rewrite build_attn_bias_unfold in Hr. cbn [fst] in Hr.
  apply bind_Ok in Hr as (bias & Hbias & Hr).
  apply bind_Ok in Hr as (mask0 & Hmask0 & Hr).
  apply bind_Ok in Hr as (mask1 & Hmask1 & Hr).
  apply bind_Ok in Hmask0 as (u & _ & Hmask0).
  apply bind_Ok in Hmask0 as (c & _ & Hmask0).
  apply get4_Some in Hv as (Hb & Hh & Hq & Hk & ->).
  rewrite <- at4_broadcast_lt by assumption.
  unfold where_neg_inf in Hr. rewrite (at4_broadcast_broadcast _ _ _ b h q k Hr).
  apply marked_to_bool in Hbm as (Hb' & Hk' & Hbm).
  assert (H0 : at4_broadcast mask0 b h q k = true).
  { unfold logical_or in Hmask0.
    rewrite (at4_broadcast_broadcast _ _ _ b h q k Hmask0).
    rewrite at4_broadcast_unsqueeze_1_1 by assumption.
    rewrite Hbm. apply orb_true_r. }
  assert (H1 : at4_broadcast mask1 b h q k = true).
  { destruct am as [am|]; [|now injection Hmask1 as <-].
    destruct (negb (all (to_bool am))); [|now injection Hmask1 as <-].
    apply bind_Ok in Hmask1 as (u' & _ & Hmask1).
    unfold logical_and in Hmask1.
    rewrite (at4_broadcast_broadcast _ _ _ b h q k Hmask1), H0.
    apply marked_to_bool in Ham as (Hb'' & Hk'' & Ham).
    rewrite at4_broadcast_unsqueeze_1_1 by assumption.
    now rewrite Ham. }
  rewrite H1. eexists. reflexivity.
Qed.

Lemma build_attn_bias_bidirectional_shape (pow2 : Q -> Q) (c : Config)
      (fresh : Fresh) (M : MosaicModel) (B S : nat) (am : option (t2 Z))
      (bm : t2 Z) (r : t4 xfloat) :
  MosaicModel_init pow2 c fresh = Ok M ->
  S <= max_seq_len c ->
  fst (build_attn_bias B S am (Some bm) M) = Ok r ->
  shape4 r = (B, n_heads c, S, S) /\ shape2 bm = (B, S).
Proof.
  intros HM HS Hr.
  apply MosaicModel_init_reads in HM
    as (_ & _ & _ & _ & _ & a & Ra & Rz & Rc & Hshape & _).
  injection Hshape as A0 A1 A2 A3.
  rewrite build_attn_bias_unfold in Hr. cbn [fst] in Hr.
  apply bind_Ok in Hr as (bias & Hbias & Hr).
  apply bind_Ok in Hr as (mask0 & Hmask0 & Hr).
  apply bind_Ok in Hr as (mask1 & Hmask1 & Hr).
  apply bind_Ok in Hmask0 as (u & Hshape & Hmask0).
  apply assert_Ok, eqb_shape2_true in Hshape.
  injection Hshape as Hrows Hcols. cbn in Hrows, Hcols.
  rewrite Rc in Hmask0. cbn [bind] in Hmask0.
  assert (Hbias' : dim0 bias = 1 /\ dim1 bias = n_heads c
                   /\ dim2 bias = S /\ dim3 bias = S).
  { destruct (alibi M); [rewrite Ra in Hbias | rewrite Rz in Hbias];
      injection Hbias as <-; cbn; rewrite ?A0, ?A1, ?A2, ?A3;
      repeat split; lia. }
  destruct Hbias' as (B0 & B1 & B2 & B3).
  apply broadcast_Ok in Hmask0
    as (g0 & g1 & g2 & g3 & G0 & G1 & G2 & G3 & ->).
  cbn [dim0 dim1 dim2 dim3 slice_last2 unsqueeze_1_1 unsqueeze_0_0
       causal_template tril ones rows cols to_bool map2] in G0, G1, G2, G3.
  rewrite Hrows in G0. rewrite Hcols, Nat.min_l in G3 by assumption.
  rewrite Nat.min_l in G2 by assumption.
  rewrite bdim_one_l in G0. rewrite bdim_same in G1.
  rewrite bdim_one_r in G2. rewrite bdim_same in G3.
  injection G0 as <-. injection G1 as <-. injection G2 as <-.
  injection G3 as <-.
  assert (Hm1 : dim0 mask1 = B /\ dim1 mask1 = 1
                /\ dim2 mask1 = S /\ dim3 mask1 = S).
  { destruct am as [am|]; [|injection Hmask1 as <-; cbn; auto].
    destruct (negb (all (to_bool am))); [|injection Hmask1 as <-; cbn; auto].
    apply bind_Ok in Hmask1 as (u' & Hshape & Hmask1).
    apply assert_Ok, eqb_shape2_true in Hshape.
    injection Hshape as Hrows' Hcols'. cbn in Hrows', Hcols'.
    apply broadcast_Ok in Hmask1
      as (d0 & d1 & d2 & d3 & D0 & D1 & D2 & D3 & ->).
    cbn [dim0 dim1 dim2 dim3 unsqueeze_1_1 rows cols to_bool map2]
      in D0, D1, D2, D3.
    rewrite Hrows' in D0. rewrite Hcols' in D3.
    rewrite bdim_same in D0. rewrite bdim_same in D1.
    rewrite bdim_one_r in D2. rewrite bdim_same in D3.
    injection D0 as <-. injection D1 as <-. injection D2 as <-.
    injection D3 as <-. cbn. auto. }
  destruct Hm1 as (M0 & M1 & M2 & M3).
  apply broadcast_Ok in Hr as (e0 & e1 & e2 & e3 & E0 & E1 & E2 & E3 & ->).
  rewrite M0, B0 in E0. rewrite M1, B1 in E1. rewrite M2, B2 in E2.
  rewrite M3, B3 in E3.
  rewrite bdim_one_r in E0. rewrite bdim_one_l in E1.
  rewrite bdim_same in E2. rewrite bdim_same in E3.
  injection E0 as <-. injection E1 as <-. injection E2 as <-.
  injection E3 as <-.
  split; [reflexivity|]. unfold shape2. congruence.
Qed.

Lemma get4_in_range {A} (t : t4 A) (b h q k : nat) :
  b < dim0 t -> h < dim1 t -> q < dim2 t -> k < dim3 t ->
  get4 t b h q k = Some (at4 t b h q k).
Proof.
  intros Hb Hh Hq Hk. unfold get4.
  apply Nat.ltb_lt in Hb, Hh, Hq, Hk. now rewrite Hb, Hh, Hq, Hk.
Qed.

(** C2.  In a model built by [__init__], for [S <= max_seq_len]: when two
    positions [q] and [k] of batch element [b] are both marked in the
    bidirectional mask and neither is padding, the bias returned by
    [build_attn_bias] has finite entries at [(q, k)] and at [(k, q)], under
    every head. *)
Theorem bidirectional_pairs_are_visible (pow2 : Q -> Q) (c : Config)
        (fresh : Fresh) (M : MosaicModel) (B S : nat) (am : option (t2 Z))
        (bm : t2 Z) (r : t4 xfloat) (b q k : nat) :
  MosaicModel_init pow2 c fresh = Ok M ->
  S <= max_seq_len c ->
  fst (build_attn_bias B S am (Some bm) M) = Ok r ->
  marked bm b q -> marked bm b k ->
  not_padding am b q -> not_padding am b k ->
  forall h, h < n_heads c ->
    exists x y, get4 r b h q k = Some (Fin x)
                /\ get4 r b h k q = Some (Fin y).
Proof.
  intros HM HS Hr Mq Mk Pq Pk h Hh.
  destruct (@build_attn_bias_bidirectional_shape _ _ _ _ _ _ _ _ _ HM HS Hr)
    as [Hshape Hbm].
  injection Hshape as R0 R1 R2 R3. injection Hbm as Hrows Hcols.
  assert (Hb : b < B /\ q < S /\ k < S).
  { destruct Mq as (z & Hz & _), Mk as (z' & Hz' & _).
    apply get2_Some in Hz as (? & ? & _), Hz' as (? & ? & _). lia. }
  destruct Hb as (Hb & Hq & Hk).
  assert (Gqk : get4 r b h q k = Some (at4 r b h q k))
    by (apply get4_in_range; lia).
  assert (Gkq : get4 r b h k q = Some (at4 r b h k q))
    by (apply get4_in_range; lia).
  destruct (@marked_key_is_finite _ _ _ _ _ _ _ _ _ _ _ Hr Mk Pk Gqk) as [x Hx].
  destruct (@marked_key_is_finite _ _ _ _ _ _ _ _ _ _ _ Hr Mq Pq Gkq) as [y Hy].
  exists x, y. rewrite Gqk, Gkq, Hx, Hy. auto.
Qed.

Lemma broadcast_shape {A B C} (f : A -> B -> C) (a : t4 A) (b : t4 B)
      (c : t4 C) (e0 e1 e2 e3 : nat) :
  broadcast f a b = Ok c ->
  bdim (dim0 a) (dim0 b) = Ok e0 -> bdim (dim1 a) (dim1 b) = Ok e1 ->
  bdim (dim2 a) (dim2 b) = Ok e2 -> bdim (dim3 a) (dim3 b) = Ok e3 ->
  shape4 c = (e0, e1, e2, e3).
Proof.
  intros H H0 H1 H2 H3. unfold broadcast in H.
  rewrite H0, H1, H2, H3 in H. cbn [bind] in H. now injection H as <-.
Qed.

Lemma build_attn_bias_masked_shape (pow2 : Q -> Q) (c : Config)
      (fresh : Fresh) (M : MosaicModel) (B S : nat) (am : t2 Z)
      (bm : option (t2 Z)) (r : t4 xfloat) :
  MosaicModel_init pow2 c fresh = Ok M ->
  S <= max_seq_len c ->
  all (to_bool am) = false ->
  fst (build_attn_bias B S (Some am) bm M) = Ok r ->
  shape4 r = (B, n_heads c, S, S).
Proof.
  intros HM HS Hall Hr.
  apply MosaicModel_init_reads in HM
    as (_ & _ & _ & _ & _ & a & Ra & Rz & Rc & Hshape & _).
  injection Hshape as A0 A1 A2 A3.
  rewrite build_attn_bias_unfold in Hr. cbn [fst] in Hr.
  rewrite Hall in Hr. cbn [negb] in Hr.
  apply bind_Ok in Hr as (bias & Hbias & Hr).
  apply bind_Ok in Hr as (mask0 & Hmask0 & Hr).
  apply bind_Ok in Hr as (mask1 & Hmask1 & Hr).
  apply bind_Ok in Hmask1 as (u & Hshape & Hmask1).
  apply assert_Ok, eqb_shape2_true in Hshape.
  injection Hshape as Hrows Hcols. cbn in Hrows, Hcols.
  assert (Hb : shape4 bias = (1, n_heads c, S, S)).
  { destruct (alibi M); [rewrite Ra in Hbias | rewrite Rz in Hbias];
      injection Hbias as <-; unfold shape4; cbn;
      rewrite A0, A1, A2, A3, !Nat.min_l by assumption; reflexivity. }
  injection Hb as B0 B1 B2 B3.
  assert (Hm0 : (dim0 mask0 = 1 \/ dim0 mask0 = B) /\ dim1 mask0 = 1
                /\ dim2 mask0 = S /\ dim3 mask0 = S).
  { rewrite Rc in Hmask0. destruct bm as [bm|].
    - apply bind_Ok in Hmask0 as (u' & Hshape & Hmask0).
      apply assert_Ok, eqb_shape2_true in Hshape.
      injection Hshape as Hrows' Hcols'. cbn in Hrows', Hcols'.
      cbn [bind] in Hmask0.
      assert (Hs : shape4 mask0 = (B, 1, S, S)).
      { apply (broadcast_shape _ _ _ Hmask0); cbn;
          rewrite ?Hrows', ?Hcols', ?Nat.min_l by assumption;
          auto using bdim_one_l, bdim_one_r, bdim_same. }
      injection Hs as -> -> -> ->. auto.
    - cbn [bind] in Hmask0. injection Hmask0 as <-. cbn.
      rewrite !Nat.min_l by assumption. auto. }
  destruct Hm0 as (M0 & M1 & M2 & M3).
  assert (Hm1 : shape4 mask1 = (B, 1, S, S)).
  { apply (broadcast_shape _ _ _ Hmask1); cbn;
      rewrite ?Hrows, ?Hcols, ?M1, ?M2, ?M3;
      auto using bdim_one_l, bdim_one_r, bdim_same.
    destruct M0 as [-> | ->]; auto using bdim_one_l, bdim_same. }
  injection Hm1 as N0 N1 N2 N3.
  apply (broadcast_shape _ _ _ Hr);
    rewrite ?B0, ?B1, ?B2, ?B3, ?N0, ?N1, ?N2, ?N3;
    auto using bdim_one_l, bdim_one_r, bdim_same.
Qed.


(** ** [forward] *)

Lemma build_attn_bias_read_only (M : MosaicModel) (B S : nat)
      (am bm : option (t2 Z)) :
  build_attn_bias B S am bm M = (fst (build_attn_bias B S am bm M), M).
Proof. now rewrite build_attn_bias_unfold. Qed.

Lemma MosaicModel_hidden_states_unfold (M : MosaicModel) (ids : t2 Z)
      (am bm lgt : option (t2 Z)) :
  MosaicModel_hidden_states ids am bm lgt M
  = ((let tr := transformer M in
      assert (cols ids <=? max_seq_len (cfg M)) seq_len_message ;;;
      tok_emb <- Embedding_forward (wte tr) ids ;;
      x <- (if alibi M then Ok tok_emb
            else match wpe tr with
                 | None => Raise (AttributeError "wpe")
                 | Some wpe =>
                     pos_emb <- Embedding_forward wpe
                                  (T2 1 (cols ids) (fun _ i => Z.of_nat i)) ;;
                     add3 tok_emb pos_emb
                 end) ;;
      x <- forward_of (emb_drop tr)
                      (embedding_stage (embedding_fraction M) x) ;;
      attn_bias <- fst (build_attn_bias (rows ids) (cols ids) am bm M) ;;
      x <- run_blocks (blocks tr) x attn_bias ;;
      x <- forward_of (ln_f tr) x ;;
      x <- match lgt with
           | None => Ok (Act3 x)
           | Some l =>
               assert (eqb_shape2 (n0 x, n1 x) (shape2 (to_bool l))) "" ;;;
               x <- index_rows (view_rows x) (view_flat (to_bool l)) ;;
               Ok (Act2 x)
           end ;;
      Ok (x, attn_bias)), M).
Proof.
  unfold MosaicModel_hidden_states, mbind, attr, lift, mret. cbv beta zeta.
  destruct (assert (cols ids <=? max_seq_len (cfg M)) seq_len_message);
    cbn [bind fst]; [|reflexivity].
  destruct (Embedding_forward (wte (transformer M)) ids) as [tok|];
    cbn [bind fst]; [|reflexivity].
  destruct (alibi M);
    [| destruct (wpe (transformer M)) as [e|]; [|reflexivity];
       destruct (Embedding_forward e _) as [pos_emb|]; cbn [bind fst];
       [|reflexivity];
       destruct (add3 tok pos_emb) as [x|]; cbn [bind fst]; [|reflexivity] ];
    (cbn [bind fst];
     destruct (forward_of (emb_drop (transformer M)) _) as [x1|];
     cbn [bind fst]; [|reflexivity];
     rewrite build_attn_bias_read_only; cbn [fst];
     destruct (fst (build_attn_bias (rows ids) (cols ids) am bm M)) as [ab|];
     cbn [bind fst]; [|reflexivity];
     destruct (run_blocks _ _ _) as [x2|]; cbn [bind fst]; [|reflexivity];
     destruct (forward_of (ln_f (transformer M)) x2) as [x3|];
     cbn [bind fst]; [|reflexivity];
     destruct lgt as [l|]; [|reflexivity];
     destruct (assert _ _); cbn [bind fst]; [|reflexivity];
     destruct (index_rows _ _); reflexivity).
Qed.

Lemma MosaicModel_hidden_states_read_only (M : MosaicModel) (ids : t2 Z)
      (am bm lgt : option (t2 Z)) :
  MosaicModel_hidden_states ids am bm lgt M
  = (fst (MosaicModel_hidden_states ids am bm lgt M), M).
Proof. now rewrite MosaicModel_hidden_states_unfold. Qed.

Lemma MosaicModel_forward_unfold (M : MosaicModel) (ids : t2 Z)
      (am bm lgt : option (t2 Z)) :
  MosaicModel_forward ids am bm lgt M
  = ((xb <- fst (MosaicModel_hidden_states ids am bm lgt M) ;;
      logits <- F_linear (fst xb) (weight (wte (transformer M))) None ;;
      Ok (logits, snd xb)), M).
Proof.
  unfold MosaicModel_forward, mbind, attr, lift, mret.
  rewrite MosaicModel_hidden_states_read_only. cbn [fst].
  destruct (fst (MosaicModel_hidden_states ids am bm lgt M)) as [[x ab]|];
    cbn [bind fst snd]; [|reflexivity].
  destruct (F_linear x _ None); reflexivity.
Qed.




Lemma broadcast_dims {A B C} (f : A -> B -> C) (a : t4 A) (b : t4 B)
      (e0 e1 e2 e3 : nat) :
  bdim (dim0 a) (dim0 b) = Ok e0 -> bdim (dim1 a) (dim1 b) = Ok e1 ->
  bdim (dim2 a) (dim2 b) = Ok e2 -> bdim (dim3 a) (dim3 b) = Ok e3 ->
  exists c, broadcast f a b = Ok c /\ shape4 c = (e0, e1, e2, e3).
Proof.
  intros H0 H1 H2 H3. unfold broadcast. rewrite H0, H1, H2, H3. cbn [bind].
  eexists; split; reflexivity.
Qed.

Lemma eqb_shape2_refl (s : nat * nat) : eqb_shape2 s s = true.
Proof. unfold eqb_shape2. now rewrite !Nat.eqb_refl. Qed.

Lemma build_attn_bias_total (pow2 : Q -> Q) (c : Config) (fresh : Fresh)
      (M : MosaicModel) (B S : nat) (am bm : option (t2 Z)) :
  MosaicModel_init pow2 c fresh = Ok M ->
  S <= max_seq_len c ->
  well_shaped B S am -> well_shaped B S bm ->
  exists r, fst (build_attn_bias B S am bm M) = Ok r.
Proof.
  intros HM HS Ham Hbm.
  apply MosaicModel_init_reads in HM
    as (_ & _ & _ & _ & _ & a & Ra & Rz & Rc & Hshape & _).
  injection Hshape as A0 A1 A2 A3.
  rewrite build_attn_bias_unfold. cbn [fst]. rewrite Rc.
  assert (Hbias : exists bias,
             (b <- (if alibi M then float_buffer M "alibi_mask"
                    else float_buffer M "zeros_mask") ;;
              Ok (slice_last2 S b)) = Ok bias
             /\ shape4 bias = (1, n_heads c, S, S)).
  { destruct (alibi M); [rewrite Ra | rewrite Rz]; cbn [bind];
      (eexists; split; [reflexivity|]); unfold shape4; cbn;
      rewrite A0, A1, A2, A3, !Nat.min_l by assumption; reflexivity. }
  destruct Hbias as (bias & -> & Hb). injection Hb as B0 B1 B2 B3.
  cbn [bind].
  assert (Hmask0 : exists mask0,
             match bm with
             | Some bm =>
                 assert (eqb_shape2 (shape2 (to_bool bm)) (B, S)) "" ;;;
                 logical_or (slice_last2 S (causal_template (max_seq_len c)))
                            (unsqueeze_1_1 (to_bool bm))
             | None => Ok (slice_last2 S (causal_template (max_seq_len c)))
             end = Ok mask0
             /\ (dim0 mask0 = 1 \/ dim0 mask0 = B) /\ dim1 mask0 = 1
             /\ dim2 mask0 = S /\ dim3 mask0 = S).
  { destruct bm as [bm|]; cbn [bind].
    - cbn in Hbm. injection Hbm as Hrows Hcols.
      change (shape2 (to_bool bm)) with (rows bm, cols bm).
      rewrite Hrows, Hcols, eqb_shape2_refl. cbn [assert bind].
      destruct (@broadcast_dims _ _ _ orb
                  (slice_last2 S (causal_template (max_seq_len c)))
                  (unsqueeze_1_1 (to_bool bm)) B 1 S S)
        as (m & Hm & Hs); cbn; rewrite ?Hrows, ?Hcols, ?Nat.min_l by assumption;
        auto using bdim_one_l, bdim_one_r, bdim_same.
      exists m. injection Hs as -> -> -> ->. auto.
    - eexists; split; [reflexivity|]. cbn.
      rewrite !Nat.min_l by assumption. auto. }
  destruct Hmask0 as (mask0 & -> & M0 & M1 & M2 & M3). cbn [bind].
  assert (Hmask1 : exists mask1,
             match am with
             | Some am =>
                 if negb (all (to_bool am))
                 then assert (eqb_shape2 (shape2 (to_bool am)) (B, S)) "" ;;;
                      logical_and mask0 (unsqueeze_1_1 (to_bool am))
                 else Ok mask0
             | None => Ok mask0
             end = Ok mask1
             /\ (dim0 mask1 = 1 \/ dim0 mask1 = B) /\ dim1 mask1 = 1
             /\ dim2 mask1 = S /\ dim3 mask1 = S).
  { destruct am as [am|]; [|eauto 10].
    destruct (negb (all (to_bool am))); [|eauto 10].
    cbn in Ham. injection Ham as Hrows Hcols.
    change (shape2 (to_bool am)) with (rows am, cols am).
    rewrite Hrows, Hcols, eqb_shape2_refl. cbn [assert bind].
    destruct (@broadcast_dims _ _ _ andb mask0 (unsqueeze_1_1 (to_bool am))
                B 1 S S)
      as (m & Hm & Hs); cbn; rewrite ?Hrows, ?Hcols, ?M1, ?M2, ?M3;
      auto using bdim_one_l, bdim_one_r, bdim_same.
    - destruct M0 as [-> | ->]; auto using bdim_one_l, bdim_same.
    - exists m. injection Hs as -> -> -> ->. auto. }
  destruct Hmask1 as (mask1 & -> & N0 & N1 & N2 & N3). cbn [bind].
  unfold where_neg_inf.
  destruct (@broadcast_dims _ _ _
              (fun (m : bool) (x : Q) => if m then Fin x else NegInf)
              mask1 bias (dim0 mask1) (n_heads c) S S)
    as (r & Hr & _);
    rewrite ?B0, ?B1, ?B2, ?B3, ?N1, ?N2, ?N3;
    auto using bdim_one_l, bdim_one_r, bdim_same.
  eauto.
Qed.

Lemma positions_in_range (L S : nat) :
  S <= L -> ids_in_range L (T2 1 S (fun _ i => Z.of_nat i)) = true.
Proof.
  intros HS. unfold ids_in_range. cbn [rows cols at2].
  apply forallb_forall. intros b _. apply forallb_forall. intros i Hi.
  apply in_seq in Hi. apply andb_true_intro. split.
  - apply Z.leb_le. lia.
  - apply Z.ltb_lt. lia.
Qed.

Lemma embedding_stage_shape (f : Q) (x : t3 dual) :
  shape3 (embedding_stage f x) = shape3 x.
Proof. unfold embedding_stage. destruct (Qeq_bool f 1); reflexivity. Qed.

Lemma run_blocks_total (bs : list GPTBlock) (bias : t4 xfloat) :
  Forall (fun blk => forall bias,
              shape_preserving (fun x => GPTBlock_forward blk x bias)) bs ->
  forall x, exists y, run_blocks bs x bias = Ok y /\ shape3 y = shape3 x.
Proof.
  induction 1 as [|blk bs Hblk _ IH]; intros x; cbn [run_blocks].
  - eauto.
  - destruct (Hblk bias x) as (y & -> & Hy). cbn [bind].
    destruct (IH y) as (z & -> & Hz). exists z. split; congruence.
Qed.

Lemma MosaicModel_hidden_states_total (pow2 : Q -> Q) (c : Config)
      (fresh : Fresh) (M : MosaicModel) (ids : t2 Z)
      (am bm lgt : option (t2 Z)) :
  MosaicModel_init pow2 c fresh = Ok M ->
  cols ids <= max_seq_len c ->
  ids_in_range (vocab_size c) ids = true ->
  well_shaped (rows ids) (cols ids) am ->
  well_shaped (rows ids) (cols ids) bm ->
  well_shaped (rows ids) (cols ids) lgt ->
  well_behaved_modules M ->
  exists x bias,
    fst (MosaicModel_hidden_states ids am bm lgt M) = Ok (x, bias)
    /\ fst (build_attn_bias (rows ids) (cols ids) am bm M) = Ok bias
    /\ match x with
       | Act3 x => n2 x = d_model c
       | Act2 x => cols x = d_model c
       end.
Proof.
  intros HM HS Hids Ham Hbm Hlgt (Hdrop & Hblocks & Hlnf).
  destruct (@build_attn_bias_total pow2 c fresh M (rows ids) (cols ids) am bm
              HM HS Ham Hbm) as (bias & Hbias).
  rewrite MosaicModel_hidden_states_unfold. cbn [fst]. cbv zeta.
  rewrite Hbias.
  apply MosaicModel_init_Ok in HM as (a & bs & _ & _ & _ & HM).
  assert (Hcfg : cfg M = c) by now subst M.
  assert (Hwte : wte (transformer M)
                 = {| weight := T2 (vocab_size c) (d_model c)
                                   (fresh_wte fresh) |}) by now subst M.
  assert (Hwpe : wpe (transformer M)
                 = if alibi M then None
                   else Some {| weight := T2 (max_seq_len c) (d_model c)
                                             (fresh_wpe fresh) |})
    by now subst M.
  clear HM. rewrite Hcfg, Hwte, Hwpe.
  apply Nat.leb_le in HS as HS'. rewrite HS'. cbn [assert bind].
  unfold Embedding_forward at 1. cbn [weight rows cols]. rewrite Hids.
  cbn [bind].
  set (tok := T3 (rows ids) (cols ids) (d_model c) _).
  assert (Hx : exists x,
             (if alibi M then Ok tok
              else match (if alibi M then None
                          else Some {| weight := T2 (max_seq_len c) (d_model c)
                                                    (fresh_wpe fresh) |}) with
                   | Some wpe =>
                       pos_emb <- Embedding_forward wpe
                                    (T2 1 (cols ids) (fun _ i => Z.of_nat i)) ;;
                       add3 tok pos_emb
                   | None => Raise (AttributeError "wpe")
                   end) = Ok x
             /\ shape3 x = (rows ids, cols ids, d_model c)).
  { destruct (alibi M); [eauto|].
    unfold Embedding_forward. cbn [weight rows cols].
    rewrite positions_in_range by assumption. cbn [bind].
    unfold add3, broadcast3. cbn [n0 n1 n2 tok].
    rewrite bdim_one_r, !bdim_same. cbn [bind].
    eexists; split; reflexivity. }
  destruct Hx as (x & -> & Hx). cbn [bind].
  destruct (Hdrop (embedding_stage (embedding_fraction M) x))
    as (x1 & -> & Hx1). cbn [bind].
  rewrite embedding_stage_shape, Hx in Hx1.
  destruct (@run_blocks_total _ bias Hblocks x1) as (x2 & -> & Hx2).
  cbn [bind]. rewrite Hx1 in Hx2.
  destruct (Hlnf x2) as (x3 & -> & Hx3). cbn [bind]. rewrite Hx2 in Hx3.
  injection Hx3 as X0 X1 X2.
  destruct lgt as [l|]; cbn [bind].
  - cbn in Hlgt. injection Hlgt as Hrows Hcols.
    change (shape2 (to_bool l)) with (rows l, cols l).
    rewrite X0, X1, Hrows, Hcols, eqb_shape2_refl. cbn [assert bind].
    unfold index_rows. cbn [view_rows view_flat rows cols len1 to_bool map2].
    rewrite X0, X1, Hrows, Hcols, Nat.eqb_refl. cbn [bind].
    do 2 eexists. split; [reflexivity|]. split; [reflexivity|].
    cbn. assumption.
  - do 2 eexists. split; [reflexivity|]. split; [reflexivity|]. assumption.
Qed.

(** C9.  [forward] raises the sequence-length assertion error for every
    input longer than [max_seq_len].  For [S <= max_seq_len] the assertion
    passes, the three buffer slices [[:S, :S]] have their full shape, and
    the pass returns logits when the token ids are in the vocabulary, the
    optional masks have the shape of the input and the library modules
    return activations of the shape they receive. *)
Theorem forward_seq_len_guard (pow2 : Q -> Q) (c : Config) (fresh : Fresh)
        (M : MosaicModel) (ids : t2 Z) (am bm lgt : option (t2 Z)) :
  MosaicModel_init pow2 c fresh = Ok M ->
  (max_seq_len c < cols ids ->
   fst (MosaicModel_forward ids am bm lgt M)
   = Raise (AssertionError seq_len_message))
  /\ (cols ids <= max_seq_len c ->
      assert (cols ids <=? max_seq_len (cfg M)) seq_len_message = Ok tt
      /\ (exists a z cm,
             float_buffer M "alibi_mask" = Ok a
             /\ float_buffer M "zeros_mask" = Ok z
             /\ bool_buffer M "causal_mask" = Ok cm
             /\ shape4 (slice_last2 (cols ids) a)
                = (1, n_heads c, cols ids, cols ids)
             /\ shape4 (slice_last2 (cols ids) z)
                = (1, n_heads c, cols ids, cols ids)
             /\ shape4 (slice_last2 (cols ids) cm)
                = (1, 1, cols ids, cols ids))
      /\ (ids_in_range (vocab_size c) ids = true ->
          well_shaped (rows ids) (cols ids) am ->
          well_shaped (rows ids) (cols ids) bm ->
          well_shaped (rows ids) (cols ids) lgt ->
          well_behaved_modules M ->
          exists logits bias,
            fst (MosaicModel_forward ids am bm lgt M) = Ok (logits, bias))).
Proof.
  intros HM. split; [|intros HS; split; [|split]].
  - intros Hlong. rewrite MosaicModel_forward_unfold.
    rewrite MosaicModel_hidden_states_unfold. cbn [fst]. cbv zeta.
    apply MosaicModel_init_reads in HM as (-> & _).
    destruct (Nat.leb_spec (cols ids) (max_seq_len c)); [lia|].
    reflexivity.
  - apply MosaicModel_init_reads in HM as (-> & _).
    apply Nat.leb_le in HS. now rewrite HS.
  - apply MosaicModel_init_reads in HM
      as (_ & _ & _ & _ & _ & a & Ra & Rz & Rc & Hshape & _).
    injection Hshape as A0 A1 A2 A3.
    exists a, (zeros_like a), (causal_template (max_seq_len c)).
    repeat (split; [assumption|]).
    unfold shape4. cbn. rewrite A0, A1, A2, A3, !Nat.min_l by assumption.
    auto.
  - intros Hids Ham Hbm Hlgt Hmods.
    destruct (@MosaicModel_hidden_states_total pow2 c fresh M ids am bm lgt
                HM HS Hids Ham Hbm Hlgt Hmods) as (x & bias & Hx & _ & Hd).
    rewrite MosaicModel_forward_unfold. cbn [fst]. rewrite Hx.
    cbn [bind fst snd].
    apply MosaicModel_init_Ok in HM as (a & bs & _ & _ & _ & ->).
    cbn [transformer wte weight].
    destruct x as [x|x]; unfold F_linear; cbn [cols]; rewrite Hd,
      Nat.eqb_refl; cbn [bind]; eauto.
Qed.

(** C7, amended.  [__init__] registers exactly three buffers, [alibi_mask],
    [zeros_mask] and [causal_mask], and a forward pass leaves the model
    object, hence every registered buffer, unchanged. *)
Theorem buffers_of_the_model (pow2 : Q -> Q) (c : Config) (fresh : Fresh)
        (M : MosaicModel) :
  MosaicModel_init pow2 c fresh = Ok M ->
  (exists a,
      named_buffers M
      = [("alibi_mask", BufFloat a);
         ("zeros_mask", BufFloat (zeros_like a));
         ("causal_mask", BufBool (causal_template (max_seq_len c)))])
  /\ List.length (named_buffers M) = 3
  /\ forall ids am bm lgt,
       snd (MosaicModel_forward ids am bm lgt M) = M
       /\ named_buffers (snd (MosaicModel_forward ids am bm lgt M))
          = named_buffers M.
Proof.
  intros HM. split; [|split].
  - apply MosaicModel_init_Ok in HM as (a & bs & _ & _ & _ & ->).
    exists a. reflexivity.
  - now apply MosaicModel_init_Ok in HM as (a & bs & _ & _ & _ & ->).
  - intros ids am bm lgt. now rewrite MosaicModel_forward_unfold.
Qed.

(** The model built from the example configuration does not have two
    buffers. *)
Lemma exactly_two_buffers_fails :
  exists M,
    MosaicModel_init Example.pow2 (Example.config false None) Example.fresh
    = Ok M
    /\ List.length (named_buffers M) <> 2.
Proof.
  eexists. split; [reflexivity|]. cbn. discriminate.
Qed.


(** ** [ComposerMosaicModel] *)








(** ** Concrete runs *)

Example causal_bias_of_three_tokens :
  Example.bias_of 2 3 None None
  = Some [[[[Fin 0; NegInf; NegInf]; [Fin 0; Fin 0; NegInf];
            [Fin 0; Fin 0; Fin 0]];
           [[Fin 0; NegInf; NegInf]; [Fin 0; Fin 0; NegInf];
            [Fin 0; Fin 0; Fin 0]]]].
Proof. reflexivity. Qed.

Example bias_with_a_prompt_segment :
  Example.bias_of 2 3 None (Some Example.segment)
  = Some [[[[Fin 0; Fin 0; NegInf]; [Fin 0; Fin 0; NegInf];
            [Fin 0; Fin 0; Fin 0]];
           [[Fin 0; Fin 0; NegInf]; [Fin 0; Fin 0; NegInf];
            [Fin 0; Fin 0; Fin 0]]];
          [[[Fin 0; NegInf; NegInf]; [Fin 0; Fin 0; NegInf];
            [Fin 0; Fin 0; Fin 0]];
           [[Fin 0; NegInf; NegInf]; [Fin 0; Fin 0; NegInf];
            [Fin 0; Fin 0; Fin 0]]]].
Proof. reflexivity. Qed.

Example bias_with_padding :
  Example.bias_of 2 3 (Some Example.padded) None
  = Some [[[[Fin 0; NegInf; NegInf]; [Fin 0; Fin 0; NegInf];
            [Fin 0; Fin 0; NegInf]];
           [[Fin 0; NegInf; NegInf]; [Fin 0; Fin 0; NegInf];
            [Fin 0; Fin 0; NegInf]]];
          [[[Fin 0; NegInf; NegInf]; [Fin 0; Fin 0; NegInf];
            [Fin 0; Fin 0; Fin 0]];
           [[Fin 0; NegInf; NegInf]; [Fin 0; Fin 0; NegInf];
            [Fin 0; Fin 0; Fin 0]]]].
Proof. reflexivity. Qed.

Example targets_of_the_example_batch :
  match get_targets Example.batch with
  | Ok (Targets2 t) => Some (Example.entries2 t)
  | _ => None
  end
  = Some [[2; 3; -100]; [0; 1; -100]]%Z.
Proof. reflexivity. Qed.

Example flops_of_the_example_model :
  match ComposerMosaicModel_init Example.pow2 (Example.config false None)
                                 Example.fresh with
  | Ok self => Some (n_params self, fst (read_num_fwd_flops 3 self))
  | Raise _ => None
  end
  = Some (96, [896; 896; 896])%Z.
Proof. reflexivity. Qed.


Lemma bidirectional_pairs_are_visible_witness :
  exists M r,
    MosaicModel_init Example.pow2 (Example.config false None) Example.fresh
    = Ok M
    /\ 3 <= max_seq_len (Example.config false None)
    /\ fst (build_attn_bias 2 3 None (Some Example.segment) M) = Ok r
    /\ marked Example.segment 0 0 /\ marked Example.segment 0 1
    /\ forall h, h < 2 ->
         exists x y, get4 r 0 h 0 1 = Some (Fin x)
                     /\ get4 r 0 h 1 0 = Some (Fin y).
Proof.
  do 2 eexists. split; [reflexivity|]. split; [cbn; lia|].
  split; [reflexivity|].
  assert (M0 : marked Example.segment 0 0)
    by (exists 1%Z; split; [reflexivity | lia]).
  assert (M1 : marked Example.segment 0 1)
    by (exists 1%Z; split; [reflexivity | lia]).
  split; [exact M0|]. split; [exact M1|].
  eapply (@bidirectional_pairs_are_visible Example.pow2
           (Example.config false None) Example.fresh _ 2 3 None Example.segment
           _ 0 0 1); try reflexivity; try assumption; try exact I.
  cbn; lia.
Defined.





Lemma buffers_of_the_model_witness :
  exists M,
    MosaicModel_init Example.pow2 (Example.config false None) Example.fresh
    = Ok M
    /\ (exists a,
           named_buffers M
           = [("alibi_mask", BufFloat a);
              ("zeros_mask", BufFloat (zeros_like a));
              ("causal_mask", BufBool (causal_template 4))])
    /\ List.length (named_buffers M) = 3
    /\ forall ids am bm lgt,
         snd (MosaicModel_forward ids am bm lgt M) = M
         /\ named_buffers (snd (MosaicModel_forward ids am bm lgt M))
            = named_buffers M.
Proof.
  eexists. split; [reflexivity|].
  apply (@buffers_of_the_model Example.pow2 (Example.config false None)
           Example.fresh). reflexivity.
Defined.


Lemma example_modules_well_behaved (M : MosaicModel) :
  MosaicModel_init Example.pow2 (Example.config false None) Example.fresh
  = Ok M ->
  well_behaved_modules M.
Proof.
  intros HM.
  apply MosaicModel_init_Ok in HM as (a & bs & _ & Hbs & _ & ->).
  cbn in Hbs. injection Hbs as <-.
  assert (Hid : shape_preserving Example.id_forward)
    by (intros x; exists x; split; reflexivity).
  split; [exact Hid|]. split; [|exact Hid].
  constructor; [|constructor].
  intros bias x. unfold GPTBlock_forward, GPTMLP_forward, add3, broadcast3.
  cbn. rewrite !bdim_same. cbn. rewrite !bdim_same. cbn.
  eexists. split; reflexivity.
Qed.

Lemma forward_seq_len_guard_witness :
  exists M,
    MosaicModel_init Example.pow2 (Example.config false None) Example.fresh
    = Ok M
    /\ max_seq_len (Example.config false None) < cols Example.long_ids
    /\ fst (MosaicModel_forward Example.long_ids None None None M)
       = Raise (AssertionError seq_len_message)
    /\ cols Example.ids <= max_seq_len (Example.config false None)
    /\ exists logits bias,
         fst (MosaicModel_forward Example.ids None None None M)
         = Ok (logits, bias).
Proof.
  eexists. split; [reflexivity|].
  match goal with
  | |- _ /\ fst (MosaicModel_forward _ _ _ _ ?M) = _ /\ _ =>
      assert (HM : MosaicModel_init Example.pow2 (Example.config false None)
                                    Example.fresh = Ok M) by reflexivity
  end.
  split; [cbn; lia|]. split.
  - apply (@forward_seq_len_guard Example.pow2 (Example.config false None)
             Example.fresh _ Example.long_ids None None None HM). cbn; lia.
  - split; [cbn; lia|].
    destruct (@forward_seq_len_guard Example.pow2 (Example.config false None)
                Example.fresh _ Example.ids None None None HM) as [_ Hshort].
    destruct Hshort as (_ & _ & Hruns); [cbn; lia|].
    apply Hruns; try exact I; [reflexivity|].
    apply example_modules_well_behaved. exact HM.
Defined.

Lemma all_ones_mask_is_no_mask_witness :
  exists M,
    MosaicModel_init Example.pow2 (Example.config false None) Example.fresh
    = Ok M
    /\ (forall b k, b < rows Example.all_ones -> k < cols Example.all_ones ->
                    at2 Example.all_ones b k = 1%Z)
    /\ build_attn_bias 2 3 (Some Example.all_ones) (Some Example.segment) M
       = build_attn_bias 2 3 None (Some Example.segment) M.
Proof.
  eexists. split; [reflexivity|].
  assert (H : forall b k, b < rows Example.all_ones -> k < cols Example.all_ones ->
                          at2 Example.all_ones b k = 1%Z).
  { intros b k Hb Hk. cbn in Hb, Hk.
    destruct b as [|[|b]]; [| |lia];
      (destruct k as [|[|[|k]]]; [reflexivity..|lia]). }
  split; [exact H|].
  apply (@all_ones_mask_is_no_mask _ 2 3 Example.all_ones (Some Example.segment) H).
Defined.

(** * Further properties *)

(** ** [alibi_bias] *)









(** ** [MosaicModel.__init__] *)

Lemma GPTBlock_init_Ok_iff (c : Config) (fresh : Fresh) (i : nat) :
  (exists b, GPTBlock_init c fresh i = Ok b) <-> attention_available c.
Proof.
  unfold GPTBlock_init, attention_available, TritonFlashAttention_init,
    TorchAttention_init.
  destruct (String.eqb_spec (attn_impl c) "triton") as [Ht|Ht].
  - cbn [bind]. destruct (Qeq_bool (attn_pdrop c) 0) eqn:E; cbn.
    + apply Qeq_bool_iff in E. split; eauto.
    + split; [intros [b Hb]; discriminate|].
      intros [[_ E']|E']; [|congruence].
      apply Qeq_bool_iff in E'. congruence.
  - destruct (String.eqb_spec (attn_impl c) "torch") as [Hc|Hc]; cbn.
    + split; eauto.
    + split; [intros [b Hb]; discriminate | intros [[? _]|?]; contradiction].
Qed.

Lemma mapM_Ok_iff {A B} (f : A -> result B) (l : list A) :
  (exists bs, mapM f l = Ok bs)
  <-> (forall a, In a l -> exists b, f a = Ok b).
Proof.
  induction l as [|a l IH]; cbn [mapM].
  - split; [intros _ a [] | eauto].
  - split.
    + intros [bs H]. apply bind_Ok in H as (b & Hb & H).
      apply bind_Ok in H as (bs' & Hbs & _).
      intros a' [<-|Hin]; [eauto|]. apply IH; eauto.
    + intros H. destruct (H a (or_introl eq_refl)) as [b ->]. cbn [bind].
      destruct IH as [_ IH].
      destruct IH as [bs ->]; [intros a' Ha'; apply H; now right|].
      cbn [bind]. eauto.
Qed.

Lemma mapM_length {A B} (f : A -> result B) (l : list A) (bs : list B) :
  mapM f l = Ok bs -> List.length bs = List.length l.
Proof.
  revert bs. induction l as [|a l IH]; cbn [mapM]; intros bs H.
  - now injection H as <-.
  - apply bind_Ok in H as (b & _ & H). apply bind_Ok in H as (bs' & Hbs & H).
    injection H as <-. cbn. f_equal. now apply IH.
Qed.

Lemma blocks_Ok_iff (c : Config) (fresh : Fresh) :
  (exists bs, mapM (GPTBlock_init c fresh) (seq 0 (n_layers c)) = Ok bs)
  <-> (n_layers c = 0 \/ attention_available c).
Proof.
  rewrite mapM_Ok_iff. split.
  - intros H. destruct (n_layers c) as [|n] eqn:E; [now left|right].
    apply (GPTBlock_init_Ok_iff c fresh 0). apply H. apply in_seq. lia.
  - intros [E|Ha] i Hi.
    + rewrite E in Hi. destruct Hi.
    + now apply GPTBlock_init_Ok_iff.
Qed.

Lemma fraction_check (f : Q) :
  Qlt_bool 0 f && Qle_bool f 1 = true <-> (0 < f)%Q /\ (f <= 1)%Q.
Proof.
  unfold Qlt_bool. rewrite andb_true_iff, negb_true_iff, Qle_bool_iff.
  split; intros [Hlo Hhi]; split; try assumption.
  - destruct (Qlt_le_dec 0 f) as [|Hle]; [assumption|].
    apply Qle_bool_iff in Hle. congruence.
  - destruct (Qle_bool f 0) eqn:E; [|reflexivity].
    apply Qle_bool_iff in E. exfalso. now apply (Qlt_not_le 0 f).
Qed.

(** X5.  A model that [__init__] has returned was built from a
    configuration named [mosaic_model], with an attention implementation
    that is available whenever there is a layer, and at least one head; it
    keeps the configuration, its embedding fraction lies in (0, 1], it has
    one block per layer, and it has a position embedding exactly when alibi
    is off. *)
Theorem constructed_model_invariants (pow2 : Q -> Q) (c : Config)
        (fresh : Fresh) (M : MosaicModel) :
  MosaicModel_init pow2 c fresh = Ok M ->
  name c = "mosaic_model"
  /\ (n_layers c = 0 \/ attention_available c)
  /\ n_heads c <> 0
  /\ cfg M = c
  /\ (0 < embedding_fraction M)%Q /\ (embedding_fraction M <= 1)%Q
  /\ List.length (blocks (transformer M)) = n_layers c
  /\ (wpe (transformer M) = None <-> alibi M = true).
Proof.
  intros HM.
  assert (Hname : name c = "mosaic_model").
  { unfold MosaicModel_init in HM.
    apply bind_Ok in HM as (u & Hname & _).
    apply assert_Ok in Hname. now apply String.eqb_eq in Hname. }
  apply MosaicModel_init_Ok in HM as (a & bs & Ha & Hbs & Hfrac & ->).
  apply fraction_check in Hfrac as [Hlo Hhi].
  apply alibi_bias_Ok in Ha as (HH & _).
  split; [exact Hname|].
  split; [apply (blocks_Ok_iff c fresh); eauto|].
  split; [exact HH|]. split; [reflexivity|].
  split; [exact Hlo|]. split; [exact Hhi|].
  cbn [transformer blocks wpe alibi]. split.
  - rewrite (mapM_length _ _ Hbs). apply length_seq.
  - destruct (cfg_get (cfg_alibi c) false); split;
      intros E; (reflexivity || discriminate E).
Qed.

(** X6.  The two assertions of [__init__] come before anything is built: a
    wrong name raises an [AssertionError], and with the right name an
    embedding fraction outside (0, 1] raises the [AssertionError] with the
    message of the source. *)
Theorem init_assertions_come_first (pow2 : Q -> Q) (c : Config)
        (fresh : Fresh) :
  (name c <> "mosaic_model" ->
   exists msg, MosaicModel_init pow2 c fresh = Raise (AssertionError msg))
  /\ (name c = "mosaic_model" ->
      ~ ((0 < cfg_get (cfg_embedding_fraction c) 1)%Q
         /\ (cfg_get (cfg_embedding_fraction c) 1 <= 1)%Q) ->
      MosaicModel_init pow2 c fresh
      = Raise (AssertionError
                 "model.embedding_fraction must be between 0 (exclusive) and 1 (inclusive)!")).
Proof.
  unfold MosaicModel_init. split.
  - intros Hname. apply String.eqb_neq in Hname. rewrite Hname. cbn. eauto.
  - intros Hname Hfrac. apply String.eqb_eq in Hname. rewrite Hname.
    cbn [assert bind].
    destruct (Qlt_bool 0 (cfg_get (cfg_embedding_fraction c) 1%Q)
              && Qle_bool (cfg_get (cfg_embedding_fraction c) 1%Q) 1) eqn:E;
      [|reflexivity].
    apply fraction_check in E. contradiction.
Qed.

(** ** [build_attn_bias], entry by entry *)

Lemma at4_broadcast_causal_slice (L S b h q k : nat) :
  S <= L -> q < S -> k < S ->
  at4_broadcast (slice_last2 S (causal_template L)) b h q k = (k <=? q).
Proof.
  intros HS Hq Hk. unfold at4_broadcast.
  cbn [slice_last2 causal_template unsqueeze_0_0 tril ones dim0 dim1 dim2
       dim3 rows cols at4 at2].
  rewrite !Nat.min_l by assumption.
  rewrite (bidx_lt Hq), (bidx_lt Hk).
  now destruct (k <=? q).
Qed.

Lemma build_attn_bias_entry (pow2 : Q -> Q) (c : Config) (fresh : Fresh)
      (M : MosaicModel) (B S : nat) (am bm : option (t2 Z)) (r : t4 xfloat)
      (b h q k : nat) :
  MosaicModel_init pow2 c fresh = Ok M ->
  S <= max_seq_len c ->
  well_shaped B S am -> well_shaped B S bm ->
  fst (build_attn_bias B S am bm M) = Ok r ->
  b < B -> h < n_heads c -> q < S -> k < S ->
  at4_broadcast r b h q k
  = if ((k <=? q) || key_marked bm b k) && key_kept am b k
    then Fin (template_bias pow2 M h q k)
    else NegInf.
Proof.
  intros HM HS Ham Hbm Hr Hb Hh Hq Hk.
  apply MosaicModel_init_reads in HM
    as (Hcfg & _ & Habm & _ & _ & a & Ra & Rz & Rc & Hshape & Hent).
  injection Hshape as A0 A1 A2 A3.
  rewrite build_attn_bias_unfold in Hr. cbn [fst] in Hr. rewrite Rc in Hr.
  apply bind_Ok in Hr as (bias & Hbias & Hr).
  apply bind_Ok in Hr as (mask0 & Hmask0 & Hr).
  apply bind_Ok in Hr as (mask1 & Hmask1 & Hr).
  unfold where_neg_inf in Hr.
  rewrite (at4_broadcast_broadcast _ _ _ b h q k Hr).
  assert (Ebias : at4_broadcast bias b h q k = template_bias pow2 M h q k).
  { unfold template_bias. rewrite Hcfg, Habm.
    destruct (alibi M); [rewrite Ra in Hbias | rewrite Rz in Hbias];
      injection Hbias as <-; unfold at4_broadcast;
      cbn [slice_last2 zeros_like map4 dim0 dim1 dim2 dim3 at4];
      rewrite ?A0, ?A1, ?A2, ?A3, ?Nat.min_l by assumption;
      [|reflexivity].
    rewrite bidx_one, (bidx_lt Hh), (bidx_lt Hq), (bidx_lt Hk).
    apply Hent; lia. }
  assert (Emask0 : at4_broadcast mask0 b h q k
                   = (k <=? q) || key_marked bm b k).
  { destruct bm as [m|]; cbn [bind] in Hmask0.
    - apply bind_Ok in Hmask0 as (u & _ & Hmask0).
      cbn in Hbm. injection Hbm as Hrows Hcols.
      unfold logical_or in Hmask0.
      rewrite (at4_broadcast_broadcast _ _ _ b h q k Hmask0).
      rewrite at4_broadcast_causal_slice by assumption.
      rewrite at4_broadcast_unsqueeze_1_1 by (cbn; lia). reflexivity.
    - injection Hmask0 as <-.
      rewrite at4_broadcast_causal_slice by assumption.
      cbn. now rewrite orb_false_r. }
  assert (Emask1 : at4_broadcast mask1 b h q k
                   = ((k <=? q) || key_marked bm b k) && key_kept am b k).
  { destruct am as [m|]; [|injection Hmask1 as <-; cbn;
                           now rewrite andb_true_r].
    cbn in Ham. injection Ham as Hrows Hcols.
    destruct (all (to_bool m)) eqn:Hall; cbn [negb] in Hmask1.
    - injection Hmask1 as <-. rewrite Emask0.
      rewrite all_true_iff in Hall.
      specialize (Hall b k). cbn in Hall. cbn [key_kept].
      rewrite Hall by lia. now rewrite andb_true_r.
    - apply bind_Ok in Hmask1 as (u & _ & Hmask1).
      unfold logical_and in Hmask1.
      rewrite (at4_broadcast_broadcast _ _ _ b h q k Hmask1), Emask0.
      rewrite at4_broadcast_unsqueeze_1_1 by (cbn; lia). reflexivity. }
  now rewrite Emask1, Ebias.
Qed.


Lemma all_false_of_zero (m : t2 Z) (b k : nat) :
  b < rows m -> k < cols m -> at2 m b k = 0%Z -> all (to_bool m) = false.
Proof.
  intros Hb Hk Hz. destruct (all (to_bool m)) eqn:E; [|reflexivity].
  rewrite all_true_iff in E. specialize (E b k Hb Hk). cbn in E.
  rewrite Hz in E. discriminate.
Qed.

(** X8.  With left padding a query can lose every key: if the attention
    mask is zero at all positions up to [q], the whole row of query [q] is
    [-inf]. *)
Theorem left_padding_blinds_the_query (pow2 : Q -> Q) (c : Config)
        (fresh : Fresh) (M : MosaicModel) (B S : nat) (m : t2 Z)
        (b q : nat) :
  MosaicModel_init pow2 c fresh = Ok M ->
  S <= max_seq_len c ->
  shape2 m = (B, S) -> b < B -> q < S ->
  (forall k, k <= q -> at2 m b k = 0%Z) ->
  exists r,
    fst (build_attn_bias B S (Some m) None M) = Ok r
    /\ forall h k, h < n_heads c -> k < S -> get4 r b h q k = Some NegInf.
Proof.
  intros HM HS Hm Hb Hq Hpad.
  destruct (@build_attn_bias_total pow2 c fresh M B S (Some m) None
              HM HS Hm I) as (r & Hr).
  exists r. split; [assumption|]. intros h k Hh Hk.
  injection Hm as Hrows Hcols.
  assert (Hall : all (to_bool m) = false).
  { apply (@all_false_of_zero m b 0); try lia. apply Hpad. lia. }
  pose proof (@build_attn_bias_masked_shape pow2 c fresh M B S m None r
                HM HS Hall Hr) as Hshape.
  injection Hshape as R0 R1 R2 R3.
  rewrite get4_in_range by lia. f_equal.
  rewrite <- at4_broadcast_lt by lia.
  rewrite (@build_attn_bias_entry pow2 c fresh M B S (Some m) None r b h q k)
    by (try assumption; try exact I; unfold well_shaped, shape2; congruence).
  cbn [key_marked key_kept]. rewrite orb_false_r.
  destruct (Nat.leb_spec k q) as [Hkq|Hkq]; [|reflexivity].
  now rewrite (Hpad k Hkq).
Qed.

(** X9.  A bidirectional mask whose shape is not [(B, S)] raises the
    assertion error; so does an attention mask of another shape, unless all
    its entries are non-zero, in which case its shape is never looked
    at. *)
Theorem mask_shape_assertions (pow2 : Q -> Q) (c : Config) (fresh : Fresh)
        (M : MosaicModel) (B S : nat) :
  MosaicModel_init pow2 c fresh = Ok M ->
  (forall am m, shape2 m <> (B, S) ->
     fst (build_attn_bias B S am (Some m) M) = Raise (AssertionError ""))
  /\ (S <= max_seq_len c ->
      forall bm m, well_shaped B S bm ->
        all (to_bool m) = false -> shape2 m <> (B, S) ->
        fst (build_attn_bias B S (Some m) bm M)
        = Raise (AssertionError "")).
Proof.
  intros HM.
  assert (Hneq : forall m : t2 Z, shape2 m <> (B, S) ->
                   eqb_shape2 (shape2 (to_bool m)) (B, S) = false).
  { intros m Hm. destruct (eqb_shape2 _ _) eqn:E; [|reflexivity].
    apply eqb_shape2_true in E. contradiction. }
  pose proof (@MosaicModel_init_reads pow2 c fresh M HM)
    as (_ & _ & _ & _ & _ & a & Ra & Rz & Rc & _).
  assert (Hbias : exists bias,
             (b <- (if alibi M then float_buffer M "alibi_mask"
                    else float_buffer M "zeros_mask") ;;
              Ok (slice_last2 S b)) = Ok bias)
    by (destruct (alibi M); [rewrite Ra | rewrite Rz]; cbn; eauto).
  destruct Hbias as (bias & Hbias).
  split.
  - intros am m Hm. rewrite build_attn_bias_unfold. cbn [fst].
    rewrite Hbias. cbn [bind]. now rewrite (Hneq m Hm).
  - intros HS bm m Hbm Hall Hm.
    destruct (@build_attn_bias_total pow2 c fresh M B S None bm HM HS I Hbm)
      as (r0 & Hr0).
    rewrite build_attn_bias_unfold in Hr0 |- *. cbn [fst] in Hr0 |- *.
    rewrite Hbias in Hr0 |- *. cbn [bind] in Hr0 |- *.
    apply bind_Ok in Hr0 as (mask0 & Hmask0 & _). rewrite Hmask0.
    cbn [bind]. rewrite Hall. cbn [negb]. now rewrite (Hneq m Hm).
Qed.

(** X10.  [build_attn_bias] does not check the sequence length itself.
    Beyond [max_seq_len] and without masks it returns a bias cut to
    [(1, n_heads, max_seq_len, max_seq_len)]; with a bidirectional mask of
    shape [(B, S)] the broadcast against the cut causal mask raises a
    [RuntimeError]. *)
Theorem beyond_max_seq_len (pow2 : Q -> Q) (c : Config) (fresh : Fresh)
        (M : MosaicModel) (B S : nat) :
  MosaicModel_init pow2 c fresh = Ok M ->
  max_seq_len c < S ->
  (exists r, fst (build_attn_bias B S None None M) = Ok r
             /\ shape4 r = (1, n_heads c, max_seq_len c, max_seq_len c))
  /\ (2 <= max_seq_len c ->
      forall am m, shape2 m = (B, S) ->
        exists msg,
          fst (build_attn_bias B S am (Some m) M) = Raise (RuntimeError msg)).
Proof.
  intros HM HS.
  pose proof (@MosaicModel_init_reads pow2 c fresh M HM)
    as (_ & _ & _ & _ & _ & a & Ra & Rz & Rc & Hshape & _).
  injection Hshape as A0 A1 A2 A3.
  assert (Hbias : exists bias,
             (b <- (if alibi M then float_buffer M "alibi_mask"
                    else float_buffer M "zeros_mask") ;;
              Ok (slice_last2 S b)) = Ok bias
             /\ shape4 bias = (1, n_heads c, max_seq_len c, max_seq_len c)).
  { destruct (alibi M); [rewrite Ra | rewrite Rz]; cbn [bind];
      (eexists; split; [reflexivity|]); unfold shape4; cbn;
      rewrite A0, A1, A2, A3, !Nat.min_r by lia; reflexivity. }
  destruct Hbias as (bias & Hbias & Hb). injection Hb as B0 B1 B2 B3.
  split.
  - rewrite build_attn_bias_unfold. cbn [fst]. rewrite Hbias, Rc.
    cbn [bind]. unfold where_neg_inf, broadcast.
    cbn [slice_last2 causal_template unsqueeze_0_0 tril ones dim0 dim1 dim2
         dim3 rows cols].
    rewrite B0, B1, B2, B3, !Nat.min_r by lia.
    rewrite !bdim_same, bdim_one_l. cbn [bind].
    eexists. split; reflexivity.
  - intros HL am m Hm. injection Hm as Hrows Hcols.
    rewrite build_attn_bias_unfold. cbn [fst]. rewrite Hbias, Rc.
    cbn [bind].
    change (shape2 (to_bool m)) with (rows m, cols m).
    rewrite Hrows, Hcols, eqb_shape2_refl. cbn [assert bind].
    unfold logical_or, broadcast.
    cbn [slice_last2 causal_template unsqueeze_0_0 unsqueeze_1_1 to_bool
         map2 tril ones dim0 dim1 dim2 dim3 rows cols].
    rewrite Hrows, Hcols, !Nat.min_r by lia.
    rewrite bdim_one_l, bdim_same, bdim_one_r. cbn [bind].
    unfold bdim.
    destruct (Nat.eqb_spec (max_seq_len c) S); [lia|].
    destruct (Nat.eqb_spec (max_seq_len c) 1); [lia|].
    destruct (Nat.eqb_spec S 1); [lia|]. cbn. eauto.
Qed.

(** ** [forward], shapes and rejected inputs *)







(** ** [get_targets], [forward] and [loss] of the wrapper *)

Lemma map_nth_seq {A B} (f : A -> B) (l : list A) (d : A) :
  map (fun r => f (nth r l d)) (seq 0 (List.length l)) = map f l.
Proof.
  induction l as [|a l IH]; [reflexivity|].
  cbn [List.length seq map nth]. f_equal.
  rewrite <- seq_shift, map_map. exact IH.
Qed.

Lemma filter_map_swap {A B} (f : A -> B) (p : B -> bool) (l : list A) :
  map f (filter (fun a => p (f a)) l) = filter p (map f l).
Proof.
  induction l as [|a l IH]; [reflexivity|].
  cbn [filter map]. destruct (p (f a)); cbn [map]; now rewrite IH.
Qed.

Lemma entries1_index1 {A} (t : t1 A) (p : A -> bool) :
  entries1 (index1 t (map1 p t)) = filter p (entries1 t).
Proof.
  unfold entries1, index1, true_indices. cbn [len1 at1 map1].
  rewrite (map_nth_seq (at1 t)). apply filter_map_swap.
Qed.

(** X13.  With labels in the batch, [get_targets] returns the labels in
    row-major order with every [-100] removed. *)
Theorem targets_of_labels (batch : Batch) (l : t2 Z) :
  labels batch = Some l ->
  exists t,
    get_targets batch = Ok (Targets1 t)
    /\ entries1 t = filter (fun z => negb (z =? -100)%Z) (entries1 (view_flat l))
    /\ Forall (fun z => z <> (-100)%Z) (entries1 t)
    /\ len1 t <= rows l * cols l.
Proof.
  intros Hl. unfold get_targets. rewrite Hl.
  eexists. split; [reflexivity|].
  assert (E : entries1 (index1 (view_flat l)
                          (map1 (fun z => negb (z =? ignore_label)%Z)
                                (view_flat l)))
              = filter (fun z => negb (z =? -100)%Z) (entries1 (view_flat l)))
    by apply entries1_index1.
  split; [exact E|]. split.
  - rewrite E. apply Forall_forall. intros z Hz.
    apply filter_In in Hz as [_ Hz].
    apply negb_true_iff, Z.eqb_neq in Hz. exact Hz.
  - assert (Hlen : List.length (entries1 (index1 (view_flat l)
                          (map1 (fun z => negb (z =? ignore_label)%Z)
                                (view_flat l))))
                   <= List.length (entries1 (view_flat l)))
      by (rewrite E; apply filter_length_le).
    unfold entries1 in Hlen. rewrite !length_map, !length_seq in Hlen.
    exact Hlen.
Qed.








(** ** Parameters, the attention mask of [TorchAttention], blocks *)

(** X16.  Without labels and with sequences of length zero, the write to
    the last column fails: [get_targets] and [loss] raise
    [IndexError]. *)
Theorem empty_sequences_have_no_targets (batch : Batch) :
  labels batch = None ->
  cols (input_ids batch) = 0 ->
  exists msg,
    get_targets batch = Raise (IndexError msg)
    /\ forall nll outputs, loss nll outputs batch = Raise (IndexError msg).
Proof.
  intros Hl HS. unfold loss, get_targets, set_last_column. rewrite Hl.
  cbn [torch_roll cols]. rewrite HS. cbn. eauto.
Qed.

Lemma fold_numel_acc (l : param_list) (a : Z) :
  fold_left (fun acc p => (acc + Z.of_nat (numel (snd p)))%Z) l a
  = (a + total_numel l)%Z.
Proof.
  unfold total_numel. revert a.
  induction l as [|p l IH]; intros a; cbn [fold_left]; [lia|].
  rewrite IH, (IH (0 + _)%Z). lia.
Qed.

Lemma total_numel_app (l1 l2 : param_list) :
  total_numel (l1 ++ l2) = (total_numel l1 + total_numel l2)%Z.
Proof.
  unfold total_numel at 1. rewrite fold_left_app, fold_numel_acc.
  reflexivity.
Qed.

Lemma total_numel_cons (p : string * list nat) (l : param_list) :
  total_numel (p :: l) = (Z.of_nat (numel (snd p)) + total_numel l)%Z.
Proof. unfold total_numel at 1. cbn [fold_left]. now rewrite fold_numel_acc. Qed.

Lemma total_numel_prefix (s : string) (l : param_list) :
  total_numel (prefix s l) = total_numel l.
Proof.
  induction l as [|p l IH]; [reflexivity|].
  cbn [prefix map]. rewrite !total_numel_cons. cbn [snd].
  unfold prefix in IH. now rewrite IH.
Qed.

Lemma torch_block_parameters (c : Config) (fresh : Fresh) (i : nat)
      (b : GPTBlock) :
  attn_impl c = "torch" ->
  GPTBlock_init c fresh i = Ok b ->
  total_numel (GPTBlock_parameters b) = torch_block_numel c.
Proof.
  intros Himpl. unfold GPTBlock_init. rewrite Himpl. cbn [String.eqb].
  cbn. intros [= <-].
  unfold GPTBlock_parameters, GPTMLP_parameters, Attention_parameters.
  cbn [ln_1 attn ln_2 mlp resid_attn_dropout resid_mlp_dropout
       mlp_up mlp_act mlp_down GPTMLP_init nn_LayerNorm nn_Linear nn_Dropout
       nn_GELU parameters_of nn_MultiheadAttention_parameters].
  rewrite !total_numel_app, !total_numel_prefix.
  rewrite ?total_numel_app, ?total_numel_prefix.
  unfold total_numel, torch_block_numel, nn_MultiheadAttention_parameters.
  cbn [fold_left snd numel fold_right].
  rewrite !Z.pow_2_r, !Nat2Z.inj_mul.
  change (Z.of_nat 1) with 1%Z. change (Z.of_nat 3) with 3%Z. ring.
Qed.

Lemma torch_blocks_parameters (c : Config) (fresh : Fresh) (l : list nat)
      (bs : list GPTBlock) (i : nat) :
  attn_impl c = "torch" ->
  mapM (GPTBlock_init c fresh) l = Ok bs ->
  total_numel (ModuleList_parameters i bs)
  = (Z.of_nat (List.length l) * torch_block_numel c)%Z.
Proof.
  intros Himpl. revert bs i.
  induction l as [|a l IH]; cbn [mapM]; intros bs i H.
  - injection H as <-. reflexivity.
  - apply bind_Ok in H as (b & Hb & H). apply bind_Ok in H as (bs' & Hbs & H).
    injection H as <-. cbn [ModuleList_parameters List.length].
    rewrite total_numel_app, total_numel_prefix.
    rewrite (@torch_block_parameters c fresh a b Himpl Hb), (IH bs' (S i) Hbs).
    lia.
Qed.

(** X17.  The number of parameters that [num_fwd_flops] uses, for torch
    attention: the token embedding, the position embedding unless alibi is
    on, [4 d^2 + 2 r d^2 + r d + 9 d] per block and the final layer
    norm. *)
Theorem parameter_count_torch (pow2 : Q -> Q) (c : Config) (fresh : Fresh)
        (self : ComposerMosaicModel) :
  ComposerMosaicModel_init pow2 c fresh = Ok self ->
  attn_impl c = "torch" ->
  n_params self
  = (Z.of_nat (vocab_size c) * Z.of_nat (d_model c)
     + (if alibi (model self) then 0
        else Z.of_nat (max_seq_len c) * Z.of_nat (d_model c))
     + Z.of_nat (n_layers c) * torch_block_numel c
     + 2 * Z.of_nat (d_model c))%Z.
Proof.
  intros Hinit Himpl.
  apply bind_Ok in Hinit as (M & HM & Hself). injection Hself as <-.
  cbn [model].
  apply MosaicModel_init_Ok in HM as (a & bs & _ & Hbs & _ & ->).
  change (n_params ?s) with (total_numel (named_parameters (model s))).
  unfold named_parameters, Transformer_parameters.
  cbn [model transformer wte wpe emb_drop blocks ln_f alibi].
  destruct (cfg_get (cfg_alibi c) false);
    rewrite !total_numel_prefix, !total_numel_app, !total_numel_prefix;
    rewrite (@torch_blocks_parameters c fresh (seq 0 (n_layers c)) bs 0
               Himpl Hbs), length_seq;
    unfold total_numel, Embedding_parameters;
    cbn [fold_left snd numel fold_right weight rows cols nn_Dropout
         nn_LayerNorm parameters_of];
    rewrite !Nat2Z.inj_mul; change (Z.of_nat 1) with 1%Z; ring.
Qed.

Lemma build_attn_bias_shape (pow2 : Q -> Q) (c : Config) (fresh : Fresh)
      (M : MosaicModel) (B S : nat) (am bm : option (t2 Z)) (r : t4 xfloat) :
  MosaicModel_init pow2 c fresh = Ok M ->
  S <= max_seq_len c ->
  well_shaped B S am -> well_shaped B S bm ->
  fst (build_attn_bias B S am bm M) = Ok r ->
  (dim0 r = 1 \/ dim0 r = B) /\ dim1 r = n_heads c
  /\ dim2 r = S /\ dim3 r = S
  /\ (am = None -> bm = None -> dim0 r = 1).
Proof.
  intros HM HS Ham Hbm Hr.
  apply MosaicModel_init_reads in HM
    as (_ & _ & _ & _ & _ & a & Ra & Rz & Rc & Hshape & _).
  injection Hshape as A0 A1 A2 A3.
  rewrite build_attn_bias_unfold in Hr. cbn [fst] in Hr. rewrite Rc in Hr.
  apply bind_Ok in Hr as (bias & Hbias & Hr).
  apply bind_Ok in Hr as (mask0 & Hmask0 & Hr).
  apply bind_Ok in Hr as (mask1 & Hmask1 & Hr).
  assert (Hb : shape4 bias = (1, n_heads c, S, S)).
  { destruct (alibi M); [rewrite Ra in Hbias | rewrite Rz in Hbias];
      injection Hbias as <-; unfold shape4; cbn;
      rewrite A0, A1, A2, A3, !Nat.min_l by assumption; reflexivity. }
  injection Hb as B0 B1 B2 B3.
  assert (Hm0 : (dim0 mask0 = 1 \/ dim0 mask0 = B) /\ dim1 mask0 = 1
                /\ dim2 mask0 = S /\ dim3 mask0 = S
                /\ (bm = None -> dim0 mask0 = 1)).
  { destruct bm as [m|]; cbn [bind] in Hmask0.
    - apply bind_Ok in Hmask0 as (u & _ & Hmask0).
      cbn in Hbm. injection Hbm as Hrows Hcols.
      assert (Hs : shape4 mask0 = (B, 1, S, S)).
      { apply (broadcast_shape _ _ _ Hmask0); cbn;
          rewrite ?Hrows, ?Hcols, ?Nat.min_l by assumption;
          auto using bdim_one_l, bdim_one_r, bdim_same. }
      injection Hs as -> -> -> ->. repeat split; auto. discriminate.
    - injection Hmask0 as <-. cbn. rewrite !Nat.min_l by assumption. auto. }
  destruct Hm0 as (M0 & M1 & M2 & M3 & M4).
  assert (Hm1 : (dim0 mask1 = 1 \/ dim0 mask1 = B) /\ dim1 mask1 = 1
                /\ dim2 mask1 = S /\ dim3 mask1 = S
                /\ (am = None -> bm = None -> dim0 mask1 = 1)).
  { destruct am as [m|]; [|injection Hmask1 as <-; auto 10].
    destruct (negb (all (to_bool m)));
      [|injection Hmask1 as <-; repeat split; auto; discriminate].
    apply bind_Ok in Hmask1 as (u & _ & Hmask1).
    cbn in Ham. injection Ham as Hrows Hcols.
    assert (Hs : shape4 mask1 = (B, 1, S, S)).
    { apply (broadcast_shape _ _ _ Hmask1); cbn;
        rewrite ?Hrows, ?Hcols, ?M1, ?M2, ?M3;
        auto using bdim_one_l, bdim_one_r, bdim_same.
      destruct M0 as [-> | ->]; auto using bdim_one_l, bdim_same. }
    injection Hs as -> -> -> ->. repeat split; auto. discriminate. }
  destruct Hm1 as (N0 & N1 & N2 & N3 & N4).
  assert (Hs : shape4 r = (dim0 mask1, n_heads c, S, S)).
  { apply (broadcast_shape _ _ _ Hr);
      rewrite ?B0, ?B1, ?B2, ?B3, ?N1, ?N2, ?N3;
      auto using bdim_one_l, bdim_one_r, bdim_same. }
  injection Hs as -> -> -> ->. auto 10.
Qed.

Lemma view_merge01_entry {A} (t : t4 A) (b h q k : nat) :
  h < dim1 t ->
  at3 (view_merge01 t) (b * dim1 t + h) q k = at4 t b h q k.
Proof.
  intros Hh. cbn [view_merge01 at3].
  rewrite Nat.div_add_l, Nat.div_small, Nat.add_0_r by lia.
  rewrite Nat.add_comm, Nat.Div0.mod_add, Nat.mod_small by lia.
  reflexivity.
Qed.

(** X18.  [TorchAttention] hands the library the bias with its first two
    dimensions merged: [(dim0 * n_heads, S, S)], which is [(n_heads, S, S)]
    without masks, and where entry [b * n_heads + h] is the bias of batch
    element [b] and head [h]. *)
Theorem torch_attention_mask_layout (pow2 : Q -> Q) (c : Config)
        (fresh : Fresh) (M : MosaicModel) (B S : nat)
        (am bm : option (t2 Z)) (r : t4 xfloat) :
  MosaicModel_init pow2 c fresh = Ok M ->
  S <= max_seq_len c ->
  well_shaped B S am -> well_shaped B S bm ->
  fst (build_attn_bias B S am bm M) = Ok r ->
  (forall mhsa ps x,
      Attention_forward (TorchAttention mhsa ps) x r
      = mhsa x (view_merge01 r))
  /\ shape3 (view_merge01 r) = (dim0 r * n_heads c, S, S)
  /\ (dim0 r = 1 \/ dim0 r = B)
  /\ (am = None -> bm = None -> shape3 (view_merge01 r) = (n_heads c, S, S))
  /\ forall b h q k, h < n_heads c ->
       at3 (view_merge01 r) (b * n_heads c + h) q k = at4 r b h q k.
Proof.
  intros HM HS Ham Hbm Hr.
  destruct (@build_attn_bias_shape pow2 c fresh M B S am bm r HM HS Ham Hbm Hr)
    as (R0 & R1 & R2 & R3 & R4).
  split; [reflexivity|].
  assert (Hs : shape3 (view_merge01 r) = (dim0 r * n_heads c, S, S))
    by (unfold shape3; cbn; now rewrite R1, R2, R3).
  split; [exact Hs|]. split; [exact R0|]. split.
  - intros -> ->. rewrite Hs, (R4 eq_refl eq_refl). f_equal. f_equal. lia.
  - intros b h q k Hh. rewrite <- R1 in *. now apply view_merge01_entry.
Qed.

Lemma add3_same_shape (x y : t3 dual) :
  shape3 y = shape3 x ->
  exists z, add3 x y = Ok z
            /\ shape3 z = shape3 x
            /\ forall i j k, i < n0 x -> j < n1 x -> k < n2 x ->
                 at3 z i j k = dadd (at3 x i j k) (at3 y i j k).
Proof.
  intros H. injection H as H0 H1 H2.
  unfold add3, broadcast3. rewrite H0, H1, H2, !bdim_same. cbn [bind].
  eexists. split; [reflexivity|]. split; [reflexivity|].
  intros i j k Hi Hj Hk. cbn [at3].
  now rewrite (bidx_lt Hi), (bidx_lt Hj), (bidx_lt Hk).
Qed.

(** X19.  When its sublayers keep shapes, a block returns an activation
    of the shape of its input, which is the input plus the attention
    branch plus the MLP branch, the MLP branch being computed from the sum
    of the first two. *)
Theorem block_is_a_residual_stack (blk : GPTBlock) (mask : t4 xfloat)
        (x : t3 dual) :
  shape_preserving (forward_of (ln_1 blk)) ->
  shape_preserving (fun a => Attention_forward (attn blk) a mask) ->
  shape_preserving (forward_of (resid_attn_dropout blk)) ->
  shape_preserving (forward_of (ln_2 blk)) ->
  shape_preserving (GPTMLP_forward (mlp blk)) ->
  shape_preserving (forward_of (resid_mlp_dropout blk)) ->
  exists b x1 n y,
    (a <- forward_of (ln_1 blk) x ;;
     b <- Attention_forward (attn blk) a mask ;;
     forward_of (resid_attn_dropout blk) b) = Ok b
    /\ (m <- forward_of (ln_2 blk) x1 ;;
        n <- GPTMLP_forward (mlp blk) m ;;
        forward_of (resid_mlp_dropout blk) n) = Ok n
    /\ GPTBlock_forward blk x mask = Ok y
    /\ shape3 y = shape3 x
    /\ forall i j k, i < n0 x -> j < n1 x -> k < n2 x ->
         at3 x1 i j k = dadd (at3 x i j k) (at3 b i j k)
         /\ at3 y i j k = dadd (at3 x1 i j k) (at3 n i j k).
Proof.
  intros Hln1 Hattn Hd1 Hln2 Hmlp Hd2.
  destruct (Hln1 x) as (a & Ea & Sa).
  destruct (Hattn a) as (b0 & Eb0 & Sb0).
  destruct (Hd1 b0) as (b & Eb & Sb).
  assert (Sbx : shape3 b = shape3 x) by congruence.
  destruct (@add3_same_shape x b Sbx) as (x1 & Ex1 & Sx1 & Vx1).
  destruct (Hln2 x1) as (m & Em & Sm).
  destruct (Hmlp m) as (n0' & En0 & Sn0).
  destruct (Hd2 n0') as (n & En & Sn).
  assert (Snx : shape3 n = shape3 x1) by congruence.
  destruct (@add3_same_shape x1 n Snx) as (y & Ey & Sy & Vy).
  exists b, x1, n, y.
  assert (Hbranch1 : (a <- forward_of (ln_1 blk) x ;;
                      b <- Attention_forward (attn blk) a mask ;;
                      forward_of (resid_attn_dropout blk) b) = Ok b)
    by (rewrite Ea; cbn [bind]; rewrite Eb0; cbn [bind]; exact Eb).
  assert (Hbranch2 : (m <- forward_of (ln_2 blk) x1 ;;
                      n <- GPTMLP_forward (mlp blk) m ;;
                      forward_of (resid_mlp_dropout blk) n) = Ok n)
    by (rewrite Em; cbn [bind]; rewrite En0; cbn [bind]; exact En).
  split; [exact Hbranch1|]. split; [exact Hbranch2|]. split.
  - unfold GPTBlock_forward. rewrite Ea. cbn [bind]. rewrite Eb0. cbn [bind].
    rewrite Eb. cbn [bind]. rewrite Ex1. cbn [bind]. rewrite Em. cbn [bind].
    rewrite En0. cbn [bind]. rewrite En. cbn [bind]. exact Ey.
  - split; [congruence|].
    intros i j k Hi Hj Hk. injection Sx1 as X0 X1 X2. split.
    + now apply Vx1.
    + apply Vy; lia.
Qed.


(** ** Concrete runs of the further properties *)




Lemma constructed_model_invariants_witness :
  exists M,
    MosaicModel_init Example.pow2 (Example.config true (Some (1 # 2)%Q))
                     Example.fresh = Ok M
    /\ name (Example.config true (Some (1 # 2)%Q)) = "mosaic_model"
    /\ (n_layers (Example.config true (Some (1 # 2)%Q)) = 0
        \/ attention_available (Example.config true (Some (1 # 2)%Q)))
    /\ n_heads (Example.config true (Some (1 # 2)%Q)) <> 0
    /\ cfg M = Example.config true (Some (1 # 2)%Q)
    /\ (0 < embedding_fraction M)%Q /\ (embedding_fraction M <= 1)%Q
    /\ List.length (blocks (transformer M)) = 1
    /\ (wpe (transformer M) = None <-> alibi M = true).
Proof.
  eexists. split; [reflexivity|].
  apply (@constructed_model_invariants Example.pow2
           (Example.config true (Some (1 # 2)%Q)) Example.fresh).
  reflexivity.
Defined.

Ltac example_model c :=
  match goal with
  | |- context [build_attn_bias _ _ _ _ ?M] =>
      assert (HM : MosaicModel_init Example.pow2 c Example.fresh = Ok M)
        by reflexivity
  | |- context [MosaicModel_forward _ _ _ _ ?M] =>
      assert (HM : MosaicModel_init Example.pow2 c Example.fresh = Ok M)
        by reflexivity
  end.


Lemma left_padding_blinds_the_query_witness :
  exists M,
    MosaicModel_init Example.pow2 (Example.config false None) Example.fresh
    = Ok M
    /\ 3 <= max_seq_len (Example.config false None)
    /\ shape2 Cases.left_padded = (2, 3)
    /\ (forall k, k <= 1 -> at2 Cases.left_padded 0 k = 0%Z)
    /\ exists r,
        fst (build_attn_bias 2 3 (Some Cases.left_padded) None M) = Ok r
        /\ forall h k, h < 2 -> k < 3 -> get4 r 0 h 1 k = Some NegInf.
Proof.
  eexists. split; [reflexivity|].
  example_model (Example.config false None).
  assert (Hpad : forall k, k <= 1 -> at2 Cases.left_padded 0 k = 0%Z).
  { intros k Hk. destruct k as [|[|k]]; [reflexivity | reflexivity | lia]. }
  split; [cbn; lia|]. split; [reflexivity|]. split; [exact Hpad|].
  apply (@left_padding_blinds_the_query Example.pow2
           (Example.config false None) Example.fresh _ 2 3
           Cases.left_padded 0 1 HM);
    [cbn; lia | reflexivity | lia | lia | exact Hpad].
Defined.

Lemma mask_shape_assertions_witness :
  exists M,
    MosaicModel_init Example.pow2 (Example.config false None) Example.fresh
    = Ok M
    /\ shape2 Cases.narrow <> (2, 3)
    /\ all (to_bool Cases.narrow) = false
    /\ fst (build_attn_bias 2 3 None (Some Cases.narrow) M)
       = Raise (AssertionError "")
    /\ fst (build_attn_bias 2 3 (Some Cases.narrow) None M)
       = Raise (AssertionError "").
Proof.
  eexists. split; [reflexivity|].
  example_model (Example.config false None).
  assert (Hs : shape2 Cases.narrow <> (2, 3)) by (intros E; discriminate E).
  split; [exact Hs|]. split; [reflexivity|].
  destruct (@mask_shape_assertions Example.pow2 (Example.config false None)
              Example.fresh _ 2 3 HM) as [Hbm Ham].
  split.
  - apply Hbm. exact Hs.
  - apply Ham; [cbn; lia | exact I | reflexivity | exact Hs].
Defined.

Lemma beyond_max_seq_len_witness :
  exists M,
    MosaicModel_init Example.pow2 (Example.config false None) Example.fresh
    = Ok M
    /\ max_seq_len (Example.config false None) < 5
    /\ (exists r, fst (build_attn_bias 1 5 None None M) = Ok r
                  /\ shape4 r = (1, 2, 4, 4))
    /\ exists msg,
        fst (build_attn_bias 1 5 None (Some Cases.long_segment) M)
        = Raise (RuntimeError msg).
Proof.
  eexists. split; [reflexivity|].
  example_model (Example.config false None).
  split; [cbn; lia|].
  destruct (@beyond_max_seq_len Example.pow2 (Example.config false None)
              Example.fresh _ 1 5 HM) as [Hcut Hbi]; [cbn; lia|].
  split; [exact Hcut|].
  apply Hbi; [cbn; lia | reflexivity].
Defined.




Ltac example_wrapper c :=
  match goal with
  | |- context [ComposerMosaicModel_forward _ ?s] =>
      assert (HS : ComposerMosaicModel_init Example.pow2 c Example.fresh
                   = Ok s) by reflexivity
  | |- context [n_params ?s] =>
      assert (HS : ComposerMosaicModel_init Example.pow2 c Example.fresh
                   = Ok s) by reflexivity
  end.


Lemma targets_of_labels_witness :
  labels Cases.labelled = Some Cases.label_tensor
  /\ exists t,
      get_targets Cases.labelled = Ok (Targets1 t)
      /\ entries1 t = filter (fun z => negb (z =? -100)%Z)
                             (entries1 (view_flat Cases.label_tensor))
      /\ Forall (fun z => z <> (-100)%Z) (entries1 t)
      /\ len1 t <= rows Cases.label_tensor * cols Cases.label_tensor.
Proof.
  split; [reflexivity|].
  apply (@targets_of_labels Cases.labelled Cases.label_tensor). reflexivity.
Defined.



Lemma empty_sequences_have_no_targets_witness :
  labels Cases.no_tokens = None
  /\ cols (input_ids Cases.no_tokens) = 0
  /\ exists msg,
      get_targets Cases.no_tokens = Raise (IndexError msg)
      /\ forall nll outputs,
           loss nll outputs Cases.no_tokens = Raise (IndexError msg).
Proof.
  split; [reflexivity|]. split; [reflexivity|].
  apply (@empty_sequences_have_no_targets Cases.no_tokens); reflexivity.
Defined.

Lemma parameter_count_torch_witness :
  exists self,
    ComposerMosaicModel_init Example.pow2 (Example.config false None)
                             Example.fresh = Ok self
    /\ attn_impl (Example.config false None) = "torch"
    /\ n_params self
       = (5 * 2 + (if alibi (model self) then 0 else 4 * 2)
          + 1 * torch_block_numel (Example.config false None) + 2 * 2)%Z.
Proof.
  eexists. split; [reflexivity|].
  example_wrapper (Example.config false None).
  split; [reflexivity|].
  apply (@parameter_count_torch Example.pow2 (Example.config false None)
           Example.fresh _ HS). reflexivity.
Defined.

Lemma torch_attention_mask_layout_witness :
  exists M r,
    MosaicModel_init Example.pow2 (Example.config false None) Example.fresh
    = Ok M
    /\ 3 <= max_seq_len (Example.config false None)
    /\ well_shaped 2 3 (Some Example.padded)
    /\ fst (build_attn_bias 2 3 (Some Example.padded) None M) = Ok r
    /\ (forall mhsa ps x,
           Attention_forward (TorchAttention mhsa ps) x r
           = mhsa x (view_merge01 r))
    /\ shape3 (view_merge01 r) = (dim0 r * 2, 3, 3)
    /\ (dim0 r = 1 \/ dim0 r = 2)
    /\ (Some Example.padded = None -> @None (t2 Z) = None ->
        shape3 (view_merge01 r) = (2, 3, 3))
    /\ forall b h q k, h < 2 ->
         at3 (view_merge01 r) (b * 2 + h) q k = at4 r b h q k.
Proof.
  do 2 eexists. split; [reflexivity|].
  example_model (Example.config false None).
  split; [cbn; lia|]. split; [reflexivity|]. split; [reflexivity|].
  apply (@torch_attention_mask_layout Example.pow2
           (Example.config false None) Example.fresh _ 2 3
           (Some Example.padded) None _ HM);
    [cbn; lia | reflexivity | exact I | reflexivity].
Defined.

Lemma block_is_a_residual_stack_witness :
  shape_preserving Example.id_forward
  /\ exists b x1 n y,
      (a <- forward_of (ln_1 Cases.block) Cases.hidden ;;
       b <- Attention_forward (attn Cases.block) a Cases.no_bias ;;
       forward_of (resid_attn_dropout Cases.block) b) = Ok b
      /\ (m <- forward_of (ln_2 Cases.block) x1 ;;
          n <- GPTMLP_forward (mlp Cases.block) m ;;
          forward_of (resid_mlp_dropout Cases.block) n) = Ok n
      /\ GPTBlock_forward Cases.block Cases.hidden Cases.no_bias = Ok y
      /\ shape3 y = shape3 Cases.hidden
      /\ forall i j k,
           i < n0 Cases.hidden -> j < n1 Cases.hidden ->
           k < n2 Cases.hidden ->
           at3 x1 i j k
           = dadd (at3 Cases.hidden i j k) (at3 b i j k)
           /\ at3 y i j k = dadd (at3 x1 i j k) (at3 n i j k).
Proof.
  assert (Hid : shape_preserving Example.id_forward)
    by (intros x; exists x; split; reflexivity).
  split; [exact Hid|].
  apply (@block_is_a_residual_stack Cases.block Cases.no_bias Cases.hidden);
    exact Hid.
Defined.


Lemma init_assertions_come_first_witness :
  (exists msg,
      MosaicModel_init Example.pow2 Cases.misnamed Example.fresh
      = Raise (AssertionError msg))
  /\ MosaicModel_init Example.pow2 (Example.config false (Some 2%Q))
                      Example.fresh
     = Raise (AssertionError
                "model.embedding_fraction must be between 0 (exclusive) and 1 (inclusive)!").
Proof.
  split.
  - apply (proj1 (init_assertions_come_first Example.pow2 Cases.misnamed
                    Example.fresh)).
    intros E. discriminate E.
  - apply (proj2 (init_assertions_come_first Example.pow2
                    (Example.config false (Some 2%Q)) Example.fresh));
      [reflexivity|].
    intros [_ Hle]. apply Hle. reflexivity.
Defined.
